(** * XML importer form scripts

    A shallow embedding of the three client scripts of the XML importer
    application (the two versions of the XML Import Configuration form script
    and the XML Import Settings form script), and the properties of what they
    show and dispatch.

    The scripts are event handlers over the Frappe client API.  Pure pieces
    (the HTML a callback assembles) are Rocq functions over JavaScript values;
    the handlers themselves are programs over the client API calls the scripts
    make, run against an environment that plays the operator and the server. *)

From stdpp Require Import gmap strings list.
From Stdlib Require Import ZArith Ascii DecimalString.

(** ** JavaScript values *)

Module Js.

(** The scalar values a field of a JSON response or of a document holds.
    [JUndefined] is what reading an absent field gives.  [JNum n] is the
    number [n]; the counters, byte lengths and status codes of these scripts
    are integers. *)
Inductive JsVal : Type :=
| JUndefined
| JNull
| JBool (b : bool)
| JNum (n : Z)
| JStr (s : string).

#[global] Instance JsVal_eq_dec : EqDecision JsVal.
Proof. solve_decision. Defined.

(** Library functions of the JavaScript runtime whose results the scripts
    only pass on: the numeric reading of a string (None is NaN) used by the
    relational operators, and String.prototype.toLowerCase. *)
Class JsRuntime : Type := {
  StringToNumber : string -> option Z;
  toLowerCase : string -> string
}.

(** ToBoolean: what [if (v)], [v && ...], [v || ...] and [v ? a : b] test. *)
Definition truthy (v : JsVal) : bool :=
  match v with
  | JUndefined | JNull => false
  | JBool b => b
  | JNum n => negb (n =? 0)%Z
  | JStr s => negb (String.eqb s "")
  end.

(** ToString: what a template literal substitutes for [${v}]. *)
Definition ToString (v : JsVal) : string :=
  match v with
  | JUndefined => "undefined"
  | JNull => "null"
  | JBool true => "true"
  | JBool false => "false"
  | JNum n => NilZero.string_of_int (Z.to_int n)
  | JStr s => s
  end.

(** [a || b] *)
Definition js_or (a b : JsVal) : JsVal := if truthy a then a else b.

(** ToNumber, None for NaN. *)
Definition ToNumber `{JsRuntime} (v : JsVal) : option Z :=
  match v with
  | JUndefined => None
  | JNull => Some 0%Z
  | JBool true => Some 1%Z
  | JBool false => Some 0%Z
  | JNum n => Some n
  | JStr s => StringToNumber s
  end.

(** [v > n] and [v < n] against a number literal: false when [v] reads as NaN. *)
Definition js_gt `{JsRuntime} (v : JsVal) (n : Z) : bool :=
  match ToNumber v with Some m => (n <? m)%Z | None => false end.

Definition js_lt `{JsRuntime} (v : JsVal) (n : Z) : bool :=
  match ToNumber v with Some m => (m <? n)%Z | None => false end.

(** [a === b] on scalars. *)
Definition strict_eq (a b : JsVal) : bool := bool_decide (a = b).

(** Array.prototype.join: null and undefined entries give the empty string. *)
Definition join (sep : string) (l : list JsVal) : string :=
  String.concat sep
    (map (fun v => match v with JUndefined | JNull => "" | _ => ToString v end) l).

(** An optional array field of a response: [None] when the field is absent or
    null. [a && a.length > 0] *)
Definition non_empty {A : Type} (a : option (list A)) : bool :=
  match a with
  | Some (_ :: _) => true
  | _ => false
  end.

Definition elements {A : Type} (a : option (list A)) : list A := default [] a.

End Js.
Import Js.

(** ** Markup *)

Module Html.

Definition dq : string := String (Ascii.ascii_of_nat 34) "".
Definition LF : string := String (Ascii.ascii_of_nat 10) "".
Definition TAB : string := String (Ascii.ascii_of_nat 9) "".

Fixpoint tabs (k : nat) : string :=
  match k with
  | O => ""
  | S k => TAB +:+ tabs k
  end.

(** The line break and indentation that separate two lines of a template
    literal indented by [k] tabs. *)
Definition nl (k : nat) : string := LF +:+ tabs k.

(** [name="value"] *)
Definition attr (name value : string) : string := name +:+ "=" +:+ dq +:+ value +:+ dq.

(** A table row of two cells, the label in bold: the shape of nearly every
    row the callbacks write. [cls] is the class of the value cell. *)
Definition tr (label : string) (cls : option string) (cell : string) : string :=
  "<tr><td><strong>" +:+ label +:+ "</strong></td><td" +:+
  match cls with Some c => " " +:+ attr "class" c | None => "" end +:+
  ">" +:+ cell +:+ "</td></tr>".

(** The string a list of appended pieces amounts to. *)
Definition html (pieces : list string) : string := String.concat "" pieces.

End Html.
Import Html.

(** ** The Frappe client API, as far as the scripts use it *)

Module Frappe.

(** A text handed to the API: the result of the translation call
    [__(msgid, args)], kept as the call so that a text is recognised whatever
    the operator's language, or a value passed as it is. *)
Inductive Text : Type :=
| __ (msgid : string) (args : list JsVal)
| Raw (v : JsVal).

(** [frm.doc]: the fields of the document the scripts read. [import_type] is
    a string: the scripts call its [toLowerCase] method. *)
Record Doc : Type := {
  name : JsVal;
  enabled : JsVal;
  xml_feed_url : JsVal;
  import_type : string
}.

(** [frm]: the document and the answer of [frm.is_new()]. *)
Record Form : Type := {
  doc : Doc;
  is_new : bool
}.

(** [r] of a [callback], with the type [M] of what the server method
    returns; [message] is [None] when [r.message] is absent or null. *)
Record Response (M : Type) : Type := {
  exc : JsVal;
  message : option M
}.
Arguments exc {M} _.
Arguments message {M} _.

(** [err] of an [error] callback. *)
Record Failure : Type := {
  err_message : JsVal
}.

(** The argument of [frappe.msgprint]: a bare text, or an object with a
    title, a message and, in places, an indicator and the wide flag. *)
Module Msg.
Record t : Type := {
  title : option Text;
  message : Text;
  indicator : option string;
  wide : bool
}.
Definition plain (text : Text) : t :=
  {| title := None; message := text; indicator := None; wide := false |}.
End Msg.

(** The argument of [frappe.show_alert]. *)
Module Alert.
Record t : Type := {
  message : Text;
  indicator : string
}.
End Alert.

(** The argument of [new frappe.ui.Dialog], and what [dialog.get_values()]
    returns. *)
Module Dialog.
Record Field : Type := {
  fieldtype : string;
  fieldname : string;
  label : Text;
  reqd : Z;
  description : Text
}.
Record t : Type := {
  title : Text;
  fields : list Field;
  primary_action_label : Text
}.
Record Values : Type := {
  xml_content : JsVal
}.
End Dialog.

(** A handler is a sequence of API calls.  Each constructor is one call and
    carries the rest of the handler [k], which runs as soon as the call
    returns; the function arguments of [confirm], [call] and [dialog_show]
    are the callbacks the script passes, which run later. [M] is the type of
    the result of the server method the handler calls. *)
Inductive Prog (M : Type) : Type :=
| skip
| throw (e : string)
| console_log (label : string) (k : Prog M)
| msgprint (m : Msg.t) (k : Prog M)
| show_alert (a : Alert.t) (k : Prog M)
| set_route (route : list string) (k : Prog M)
| reload_doc (k : Prog M)
| disable_form (k : Prog M)
| enable_form (k : Prog M)
| refresh_form (k : Prog M)
| confirm (text : Text) (on_yes : Prog M) (k : Prog M)
| call (method : string) (d : Doc) (args : list (string * JsVal))
       (callback : Response M -> Prog M) (error : Failure -> Prog M) (k : Prog M)
| dialog_show (d : Dialog.t) (primary_action : option Dialog.Values -> Prog M) (k : Prog M)
| dialog_hide (k : Prog M).
Arguments skip {M}.
Arguments throw {M} e.
Arguments console_log {M} label k.
Arguments msgprint {M} m k.
Arguments show_alert {M} a k.
Arguments set_route {M} route k.
Arguments reload_doc {M} k.
Arguments disable_form {M} k.
Arguments enable_form {M} k.
Arguments refresh_form {M} k.
Arguments confirm {M} text on_yes k.
Arguments call {M} method d args callback error k.
Arguments dialog_show {M} d primary_action k.
Arguments dialog_hide {M} k.

(** [frappe.call] without an [error] entry: the script runs nothing of its
    own when the request fails. *)
Definition no_error_callback {M : Type} : Failure -> Prog M := fun _ => skip.

(** What the operator and the browser observe, in order. *)
Inductive Event : Type :=
| EvLog (label : string)
| EvMsgprint (m : Msg.t)
| EvAlert (a : Alert.t)
| EvRoute (route : list string)
| EvReload
| EvDisable
| EvEnable
| EvRefresh
| EvConfirm (text : Text)
| EvCall (method : string) (d : Doc) (args : list (string * JsVal))
| EvDialogShow (d : Dialog.t)
| EvDialogHide
| EvThrow (e : string).

(** How a request ends: the server replies and [callback] runs, or the
    request fails and [error] runs. *)
Inductive Outcome (M : Type) : Type :=
| Replied (r : Response M)
| Failed (err : Failure).
Arguments Replied {M} r.
Arguments Failed {M} err.

(** The other side of a handler: whether the operator confirms a question,
    how a request ends, and whether the operator presses the primary action of
    a dialog and what [get_values()] returns then ([Some None] is null: a
    required field is empty). *)
Record Env (M : Type) : Type := {
  confirms : Text -> bool;
  outcome : string -> Doc -> list (string * JsVal) -> Outcome M;
  presses : Dialog.t -> option (option Dialog.Values)
}.
Arguments confirms {M} _ _.
Arguments outcome {M} _ _ _ _.
Arguments presses {M} _ _.

(** [run env p] gives the events of [p] itself and, after them, the events of
    the callbacks it registered, in the order they were registered. *)
Fixpoint run {M : Type} (env : Env M) (p : Prog M) : list Event * list Event :=
  let flat (q : list Event * list Event) := q.1 ++ q.2 in
  let step (e : Event) (q : list Event * list Event) := (e :: q.1, q.2) in
  let defer (later : list Event) (e : Event) (q : list Event * list Event) :=
    (e :: q.1, later ++ q.2) in
  match p with
  | skip => ([], [])
  | throw e => ([EvThrow e], [])
  | console_log label k => step (EvLog label) (run env k)
  | msgprint m k => step (EvMsgprint m) (run env k)
  | show_alert a k => step (EvAlert a) (run env k)
  | set_route route k => step (EvRoute route) (run env k)
  | reload_doc k => step EvReload (run env k)
  | disable_form k => step EvDisable (run env k)
  | enable_form k => step EvEnable (run env k)
  | refresh_form k => step EvRefresh (run env k)
  | confirm text on_yes k =>
      defer (if confirms env text then flat (run env on_yes) else [])
            (EvConfirm text) (run env k)
  | call method d args callback error k =>
      defer (match outcome env method d args with
             | Replied r => flat (run env (callback r))
             | Failed err => flat (run env (error err))
             end)
            (EvCall method d args) (run env k)
  | dialog_show d primary_action k =>
      defer (match presses env d with
             | Some values => flat (run env (primary_action values))
             | None => []
             end)
            (EvDialogShow d) (run env k)
  | dialog_hide k => step EvDialogHide (run env k)
  end.

Definition trace {M : Type} (env : Env M) (p : Prog M) : list Event :=
  (run env p).1 ++ (run env p).2.

(** The server methods a trace dispatches, in order. *)
Definition methods_called (t : list Event) : list string :=
  omap (fun e => match e with EvCall method _ _ => Some method | _ => None end) t.

(** Whether the form accepts input after a trace, from its state before. *)
Definition form_enabled (before : bool) (t : list Event) : bool :=
  foldl (fun on e => match e with EvDisable => false | EvEnable => true | _ => on end)
        before t.

(** [frm.add_custom_button(label, handler, group)]. *)
Record Button : Type := {
  label : Text;
  group : option Text;
  payload : Type;
  on_click : Form -> Prog payload
}.

(** A form script: the [refresh] handler, given by the buttons it adds, and
    the handlers of field changes. *)
Record Script : Type := {
  doctype : string;
  refresh : Form -> list Button;
  on_field : list (string * (Form -> Prog unit))
}.

End Frappe.
Import Frappe.

(** ** The XML Import Configuration form script

    Each button of the [refresh] handler has a module of its own: the record
    of what the server method returns (the fields the callback reads), the
    pieces the callback appends to [message], one piece per line of markup and
    one per indentation between lines, and the handler. *)

Module XmlImportConfiguration.

Definition table_open : string := "<table " +:+ attr "class" "table table-bordered" +:+ ">".

Module TriggerManualImport.

Definition callback (frm : Form) (r : Response JsVal) : Prog JsVal :=
  if negb (truthy (exc r)) then
    msgprint (Msg.plain (__ "Manual import has been triggered successfully." [])) $
    reload_doc $
    skip
  else skip.

Definition on_click (frm : Form) : Prog JsVal :=
  confirm (__ "Are you sure you want to trigger a manual import for {0}?" [name (doc frm)])
    (call "trigger_manual_import" (doc frm) [] (callback frm) no_error_callback $ skip) $
  skip.

End TriggerManualImport.

Module CheckStreamLength.

Record Sample : Type := {
  order_id : JsVal;
  status : JsVal;
  item_count : JsVal;
  note : JsVal
}.

Record Result : Type := {
  content_length : JsVal;
  content_size_human : JsVal;
  xml_valid : JsVal;
  root_tag : JsVal;
  element_count : JsVal;
  sample_elements : option (list Sample);
  parse_error : JsVal;
  first_100_chars : JsVal;
  first_500_chars : JsVal;
  full_xml_content : JsVal
}.

Definition sample_line (sample : Sample) : string :=
  if truthy (order_id sample) then
    "Order " +:+ ToString (order_id sample) +:+ ": Status " +:+ dq +:+
    ToString (status sample) +:+ dq +:+ ", " +:+ ToString (item_count sample) +:+ " items<br>"
  else
    ToString (note sample) +:+ "<br>".

Definition troubleshooting `{JsRuntime} (frm : Form) : list string :=
  [ nl 9; "<div " +:+ attr "class" "alert alert-warning" +:+ " " +:+
          attr "style" "margin-top: 15px;" +:+ ">";
    nl 10; "<h5>⚠️ No " +:+ toLowerCase (import_type (doc frm)) +:+ " found!</h5>";
    nl 10; "<p><strong>Possible issues:</strong></p>";
    nl 10; "<ul>";
    nl 11; "<li>The XML feed might be empty or returning no data</li>";
    nl 11; "<li>Authentication might be required for the URL</li>";
    nl 11; "<li>The XML structure might be different than expected</li>";
    nl 11; "<li>The feed might return data only at certain times</li>";
    nl 10; "</ul>";
    nl 10; "<p><strong>Next steps:</strong></p>";
    nl 10; "<ul>";
    nl 11; "<li>Check if the URL requires authentication headers</li>";
    nl 11; "<li>Verify the URL works in a browser</li>";
    nl 11; "<li>Contact the feed provider about data availability</li>";
    nl 10; "</ul>";
    nl 9; "</div>";
    nl 8 ].

Definition pieces `{JsRuntime} (frm : Form) (result : Result) : list string :=
  let message :=
    [ nl 8; "<h4>XML Stream Analysis</h4>";
      nl 8; table_open;
      nl 9; tr "Content Length:" None
              (ToString (content_length result) +:+ " bytes (" +:+
               ToString (content_size_human result) +:+ ")");
      nl 9; tr "XML Valid:" None (if truthy (xml_valid result) then "Yes" else "No");
      nl 7 ] in
  let message :=
    if truthy (xml_valid result) then
      let message := message ++
        [ nl 9; tr "Root Element:" None (ToString (root_tag result));
          nl 9; tr "Elements Found:" None
                  (ToString (element_count result) +:+ " " +:+
                   toLowerCase (import_type (doc frm)));
          nl 8 ] in
      if non_empty (sample_elements result) then
        let message := message ++ [ "<tr><td><strong>Sample Data:</strong></td><td>" ] in
        let message :=
          foldl (fun message sample => message ++ [ sample_line sample ])
                message (elements (sample_elements result)) in
        message ++ [ "</td></tr>" ]
      else message
    else
      message ++ [ tr "Parse Error:" None (ToString (parse_error result)) ] in
  let message := message ++
    [ nl 9; tr "First Characters:" None
              ("<code>" +:+
               ToString (js_or (first_100_chars result) (first_500_chars result)) +:+
               "</code>");
      nl 7 ] in
  let message :=
    if js_lt (content_length result) 500 && truthy (full_xml_content result) then
      message ++
      [ nl 9; tr "Full XML Content:" None
                ("<pre " +:+
                 attr "style" "max-height: 300px; overflow-y: auto; background: #f8f9fa; padding: 10px;" +:+
                 ">" +:+ ToString (full_xml_content result) +:+ "</pre>");
        nl 8 ]
    else message in
  let message := message ++ [ nl 8; "</table>"; nl 7 ] in
  if truthy (xml_valid result) && strict_eq (element_count result) (JNum 0) then
    message ++ troubleshooting frm
  else message.

Definition callback `{JsRuntime} (frm : Form) (r : Response Result) : Prog Result :=
  if negb (truthy (exc r)) then
    match message r with
    | Some result =>
        console_log "XML Stream Analysis Result:" $
        msgprint {| Msg.title := Some (__ "XML Stream Analysis" []);
                    Msg.message := Raw (JStr (html (pieces frm result)));
                    Msg.indicator := None;
                    Msg.wide := true |} $
        skip
    | None => skip
    end
  else skip.

Definition on_click `{JsRuntime} (frm : Form) : Prog Result :=
  call "check_stream_length" (doc frm) [] (callback frm) no_error_callback $ skip.

End CheckStreamLength.

Module DebugXmlFeed.

Record Result : Type := {
  url : JsVal;
  error : JsVal;
  status_code : JsVal;
  content_length : JsVal;
  content_length_stripped : JsVal;
  headers : gmap string JsVal;
  auth_used : JsVal;
  is_mostly_whitespace : JsVal;
  is_likely_error : JsVal;
  raw_content : JsVal;
  content : JsVal;
  suggested_actions : option (list JsVal)
}.

(** [result.headers['content-type']] *)
Definition header (result : Result) (key : string) : JsVal :=
  default JUndefined (headers result !! key).

Definition whitespace_row : string :=
  tr "Content Analysis:" (Some "text-warning") "⚠️ Content is mostly whitespace".

Definition likely_error_row : string :=
  tr "Content Analysis:" (Some "text-danger") "❌ Content may contain error messages".

Definition bullet (entry : JsVal) : string := "• " +:+ ToString entry +:+ "<br>".

Definition pieces (result : Result) : list string :=
  let message :=
    [ nl 8; "<h4>XML Feed Debug Information</h4>";
      nl 8; table_open;
      nl 9; tr "URL:" None (ToString (url result));
      nl 7 ] in
  let message :=
    if truthy (error result) then
      message ++ [ tr "Error:" (Some "text-danger") (ToString (error result)) ]
    else
      let message := message ++
        [ nl 9; tr "Status Code:" None (ToString (status_code result));
          nl 9; tr "Content Length:" None
                  (ToString (content_length result) +:+ " bytes (stripped: " +:+
                   ToString (content_length_stripped result) +:+ " bytes)");
          nl 9; tr "Content Type:" None
                  (ToString (js_or (header result "content-type") (JStr "Not specified")));
          nl 9; tr "Authentication Used:" None
                  (if truthy (auth_used result) then "Yes" else "No");
          nl 8 ] in
      let message :=
        if truthy (is_mostly_whitespace result) then message ++ [ whitespace_row ]
        else message in
      let message :=
        if truthy (is_likely_error result) then message ++ [ likely_error_row ]
        else message in
      let message := message ++
        [ nl 9; tr "Raw Content:" None
                  ("<code>" +:+ ToString (raw_content result) +:+ "</code>");
          nl 9; tr "Formatted Content:" None
                  ("<pre " +:+
                   attr "style" "max-height: 400px; overflow-y: auto; background: #f8f9fa; padding: 10px; white-space: pre-wrap;" +:+
                   ">" +:+ ToString (content result) +:+ "</pre>");
          nl 8 ] in
      if non_empty (suggested_actions result) then
        let message := message ++ [ "<tr><td><strong>Suggestions:</strong></td><td>" ] in
        let message :=
          foldl (fun message action => message ++ [ bullet action ])
                message (elements (suggested_actions result)) in
        message ++ [ "</td></tr>" ]
      else message in
  message ++ [ "</table>" ].

Definition callback (frm : Form) (r : Response Result) : Prog Result :=
  if negb (truthy (exc r)) then
    match message r with
    | Some result =>
        console_log "Debug XML Feed Result:" $
        msgprint {| Msg.title := Some (__ "XML Feed Debug" []);
                    Msg.message := Raw (JStr (html (pieces result)));
                    Msg.indicator := None;
                    Msg.wide := true |} $
        skip
    | None => skip
    end
  else skip.

Definition on_click (frm : Form) : Prog Result :=
  call "debug_xml_feed" (doc frm) [] (callback frm) no_error_callback $ skip.

End DebugXmlFeed.

Module AggressiveImportCheck.

Record Attempt : Type := {
  attempt : JsVal;
  timestamp : JsVal;
  content_length : JsVal;
  order_count : JsVal;
  error : JsVal;
  has_orders : JsVal;
  import_triggered : JsVal
}.

Record Result : Type := {
  total_attempts : JsVal;
  results : list Attempt
}.

Definition status `{JsRuntime} (a : Attempt) : string :=
  let status := "No Data" in
  if truthy (error a) then
    "❌ Error: " +:+ ToString (error a)
  else if truthy (has_orders a) then
    let status := "🎉 " +:+ ToString (order_count a) +:+ " orders found!" in
    if truthy (import_triggered a) then status +:+ " Import triggered!" else status
  else if js_gt (content_length a) 100 then
    "📭 Empty orders"
  else status.

Definition td (cell : string) : string := "<td>" +:+ cell +:+ "</td>".

Definition attempt_row `{JsRuntime} (a : Attempt) : list string :=
  [ nl 11; "<tr>";
    nl 12; td (ToString (attempt a));
    nl 12; td (ToString (timestamp a));
    nl 12; td (ToString (js_or (content_length a) (JStr "N/A")) +:+ " bytes");
    nl 12; td (ToString (js_or (order_count a) (JNum 0)));
    nl 12; td (status a);
    nl 11; "</tr>";
    nl 10 ].

(** [result.results.some(r => r.import_triggered)] *)
Definition importTriggered (result : Result) : bool :=
  existsb (fun r => truthy (import_triggered r)) (results result).

Definition pieces `{JsRuntime} (result : Result) : list string :=
  let message :=
    [ nl 10; "<h4>Aggressive Import Check Results</h4>";
      nl 10; "<p><strong>Total Attempts:</strong> " +:+
             ToString (total_attempts result) +:+ "</p>";
      nl 10; table_open;
      nl 11; "<tr><th>Attempt</th><th>Time</th><th>Content Size</th><th>Orders Found</th><th>Status</th></tr>";
      nl 9 ] in
  let message :=
    foldl (fun message a => message ++ attempt_row a) message (results result) in
  let message := message ++ [ "</table>" ] in
  if importTriggered result then
    message ++
    [ nl 11; "<div " +:+ attr "class" "alert alert-success" +:+ ">";
      nl 12; "<h5>🎉 Import was triggered!</h5>";
      nl 12; "<p>Orders were found and import was automatically started. Check the Import Log for results.</p>";
      nl 11; "</div>";
      nl 10 ]
  else
    message ++
    [ nl 11; "<div " +:+ attr "class" "alert alert-info" +:+ ">";
      nl 12; "<h5>📭 No orders found</h5>";
      nl 12; "<p>The feed was checked multiple times but no orders were detected. Try again later when new orders are placed.</p>";
      nl 11; "</div>";
      nl 10 ].

Definition callback `{JsRuntime} (frm : Form) (r : Response Result) : Prog Result :=
  if negb (truthy (exc r)) then
    match message r with
    | Some result =>
        console_log "Aggressive Import Result:" $
        msgprint {| Msg.title := Some (__ "Aggressive Import Check Results" []);
                    Msg.message := Raw (JStr (html (pieces result)));
                    Msg.indicator := None;
                    Msg.wide := true |} $
        if importTriggered result then reload_doc $ skip else skip
    | None => skip
    end
  else skip.

Definition question : Text :=
  __ "This will check the feed 5 times (50 seconds total) and import immediately if orders are found. Continue?" [].

Definition on_click `{JsRuntime} (frm : Form) : Prog Result :=
  confirm question
    (call "aggressive_import_check" (doc frm) [] (callback frm) no_error_callback $ skip) $
  skip.

End AggressiveImportCheck.

Module ImportFromPastedContent.

Record DebugInfo : Type := {
  debug_root_tag : JsVal;
  direct_children : option (list JsVal);
  total_children : JsVal;
  all_unique_tags : option (list JsVal)
}.

Record Result : Type := {
  content_length : JsVal;
  xml_valid : JsVal;
  root_tag : JsVal;
  element_count : JsVal;
  import_status : JsVal;
  processed_items : option (list JsVal);
  errors : option (list JsVal);
  debug_info : option DebugInfo;
  parse_error : JsVal
}.

Definition bullet (entry : JsVal) : string := "• " +:+ ToString entry +:+ "<br>".

Definition structure (d : DebugInfo) : list string :=
  let message := [ "<tr><td><strong>XML Structure:</strong></td><td>" ] in
  let message := message ++
    [ "<strong>Root:</strong> " +:+ ToString (debug_root_tag d) +:+ "<br>" ] in
  let message :=
    if non_empty (direct_children d) then
      message ++ [ "<strong>Direct Children:</strong> " +:+
                   join ", " (elements (direct_children d)) +:+ "<br>" ]
    else message in
  let message := message ++
    [ "<strong>Total Children:</strong> " +:+ ToString (total_children d) +:+ "<br>" ] in
  let message :=
    if non_empty (all_unique_tags d) then
      message ++ [ "<strong>All Tags Found:</strong> " +:+
                   join ", " (elements (all_unique_tags d)) +:+ "<br>" ]
    else message in
  message ++ [ "</td></tr>" ].

Definition pieces `{JsRuntime} (frm : Form) (result : Result) : list string :=
  let message :=
    [ nl 11; "<h4>Pasted XML Import Results</h4>";
      nl 11; table_open;
      nl 12; tr "Import Type:" None (import_type (doc frm));
      nl 12; tr "Content Length:" None (ToString (content_length result) +:+ " bytes");
      nl 12; tr "XML Valid:" None (if truthy (xml_valid result) then "✅ Yes" else "❌ No");
      nl 10 ] in
  let message :=
    if truthy (xml_valid result) then
      let message := message ++
        [ nl 12; tr "Root Element:" None (ToString (root_tag result));
          nl 12; tr "Elements Found:" None
                   (ToString (element_count result) +:+ " " +:+
                    toLowerCase (import_type (doc frm)));
          nl 12; tr "Import Status:" None (ToString (import_status result));
          nl 11 ] in
      let message :=
        if non_empty (processed_items result) then
          let message := message ++ [ "<tr><td><strong>Processed Items:</strong></td><td>" ] in
          let message :=
            foldl (fun message item => message ++ [ bullet item ])
                  message (elements (processed_items result)) in
          message ++ [ "</td></tr>" ]
        else message in
      let message :=
        if non_empty (errors result) then
          let message := message ++
            [ "<tr><td><strong>Errors:</strong></td><td " +:+ attr "class" "text-danger" +:+ ">" ] in
          let message :=
            foldl (fun message error => message ++ [ bullet error ])
                  message (elements (errors result)) in
          message ++ [ "</td></tr>" ]
        else message in
      match debug_info result with
      | Some d => message ++ structure d
      | None => message
      end
    else
      message ++ [ tr "Parse Error:" (Some "text-danger") (ToString (parse_error result)) ] in
  message ++ [ "</table>" ].

Definition callback `{JsRuntime} (frm : Form) (r : Response Result) : Prog Result :=
  if negb (truthy (exc r)) then
    match message r with
    | Some result =>
        console_log "Pasted XML Import Result:" $
        msgprint {| Msg.title := Some (__ "Pasted XML Import Results" []);
                    Msg.message := Raw (JStr (html (pieces frm result)));
                    Msg.indicator := None;
                    Msg.wide := true |} $
        if strict_eq (import_status result) (JStr "Success") then reload_doc $ skip
        else skip
    | None => skip
    end
  else skip.

Definition dialog : Dialog.t :=
  {| Dialog.title := __ "Import from Pasted XML Content" [];
     Dialog.fields :=
       [ {| Dialog.fieldtype := "Small Text";
            Dialog.fieldname := "xml_content";
            Dialog.label := __ "XML Content" [];
            Dialog.reqd := 1;
            Dialog.description :=
              __ "Paste your XML content here for debugging import process" [] |} ];
     Dialog.primary_action_label := __ "Import XML" [] |}.

(** [values] is what [dialog.get_values()] returned; reading a field of null
    throws. *)
Definition primary_action `{JsRuntime} (frm : Form) (values : option Dialog.Values)
  : Prog Result :=
  match values with
  | None => throw "TypeError"
  | Some values =>
      if truthy (Dialog.xml_content values) then
        call "import_from_pasted_content" (doc frm)
             [ ("xml_content", Dialog.xml_content values) ]
             (callback frm) no_error_callback $
        dialog_hide $
        skip
      else skip
  end.

Definition on_click `{JsRuntime} (frm : Form) : Prog Result :=
  dialog_show dialog (primary_action frm) $ skip.

End ImportFromPastedContent.

(** The [refresh] handler: the buttons it adds, in order. *)
Definition refresh `{JsRuntime} (frm : Form) : list Button :=
  (if truthy (enabled (doc frm)) && truthy (xml_feed_url (doc frm)) && negb (is_new frm) then
     [ {| label := __ "▶️ Trigger Manual Import" [];
          group := Some (__ "Actions" []);
          on_click := TriggerManualImport.on_click |} ]
   else []) ++
  (if truthy (xml_feed_url (doc frm)) && negb (is_new frm) then
     [ {| label := __ "🔍 Check Stream Length" [];
          group := None;
          on_click := CheckStreamLength.on_click |} ]
   else []) ++
  (if truthy (xml_feed_url (doc frm)) && negb (is_new frm) then
     [ {| label := __ "🐛 Debug XML Feed" [];
          group := None;
          on_click := DebugXmlFeed.on_click |} ]
   else []) ++
  (if truthy (xml_feed_url (doc frm)) && negb (is_new frm) then
     [ {| label := __ "🎯 Aggressive Import Check" [];
          group := None;
          on_click := AggressiveImportCheck.on_click |} ]
   else []) ++
  (if negb (is_new frm) then
     [ {| label := __ "📋 Debug Import from Pasted XML" [];
          group := Some (__ "Debug" []);
          on_click := ImportFromPastedContent.on_click |} ]
   else []).

Definition script `{JsRuntime} : Script :=
  {| doctype := "XML Import Configuration";
     Frappe.refresh := refresh;
     on_field := [] |}.

End XmlImportConfiguration.

(** ** The short version of the XML Import Configuration form script

    The second script registered for the same doctype: the manual import
    button only. *)

Module XmlImportConfigurationShort.

Definition callback (frm : Form) (r : Response JsVal) : Prog JsVal :=
  if negb (truthy (exc r)) then
    msgprint (Msg.plain (__ "Manual import has been triggered successfully." [])) $
    reload_doc $
    skip
  else skip.

Definition on_click (frm : Form) : Prog JsVal :=
  confirm (__ "Are you sure you want to trigger a manual import for {0}?" [name (doc frm)])
    (call "trigger_manual_import" (doc frm) [] (callback frm) no_error_callback $ skip) $
  skip.

Definition refresh (frm : Form) : list Button :=
  if truthy (enabled (doc frm)) && truthy (xml_feed_url (doc frm)) && negb (is_new frm) then
    [ {| label := __ "Trigger Manual Import" [];
         group := Some (__ "Actions" []);
         Frappe.on_click := on_click |} ]
  else [].

Definition script : Script :=
  {| doctype := "XML Import Configuration";
     Frappe.refresh := refresh;
     on_field := [] |}.

End XmlImportConfigurationShort.

(** ** The XML Import Settings form script

    doctype/xml_item_import_settings/xml_import_settings.js: the connection
    test and the manual import are functions of the script, called from the
    buttons. *)

Module XmlImportSettings.

(** What [test_connection] and [trigger_manual_import] return. *)
Module Status.
Record t : Type := {
  success : JsVal;
  message : JsVal
}.
End Status.

Definition alert (text : Text) (colour : string) : Alert.t :=
  {| Alert.message := text; Alert.indicator := colour |}.

Definition box (title : string) (text : JsVal) (colour : string) : Msg.t :=
  {| Msg.title := Some (__ title []);
     Msg.message := Raw text;
     Msg.indicator := Some colour;
     Msg.wide := false |}.

Module TestConnection.

(** The [else] branch of the callback; [text] is
    [r.message ? r.message.message : 'Connection test failed']. *)
Definition failed (text : JsVal) : Prog Status.t :=
  show_alert (alert (Raw text) "red") $
  msgprint (box "Connection Test Failed" text "red") $
  skip.

(** [if (r.message && r.message.success)] *)
Definition callback (r : Response Status.t) : Prog Status.t :=
  match message r with
  | Some m =>
      if truthy (Status.success m) then
        show_alert (alert (Raw (Status.message m)) "green") $
        msgprint (box "Connection Test Successful" (Status.message m) "green") $
        skip
      else failed (Status.message m)
  | None => failed (JStr "Connection test failed")
  end.

Definition error (err : Failure) : Prog Status.t :=
  show_alert (alert (__ "Connection test failed" []) "red") $
  skip.

Definition test_xml_connection (frm : Form) : Prog Status.t :=
  if negb (truthy (xml_feed_url (doc frm))) then
    msgprint (Msg.plain (__ "Please enter XML Feed URL first" [])) $
    skip
  else
    show_alert (alert (__ "Testing connection..." []) "blue") $
    call "test_connection" (doc frm) [] callback error $
    skip.

End TestConnection.

Module ManualImport.

Definition callback (r : Response Status.t) : Prog Status.t :=
  enable_form $
  let failed (text : JsVal) : Prog Status.t :=
    show_alert (alert (__ "Import failed" []) "red") $
    msgprint (box "Import Failed" text "red") $
    skip in
  match message r with
  | Some m =>
      if truthy (Status.success m) then
        show_alert (alert (__ "Import completed successfully" []) "green") $
        msgprint (box "Import Successful" (Status.message m) "green") $
        reload_doc $
        skip
      else failed (Status.message m)
  | None => failed (JStr "Import failed")
  end.

Definition error (err : Failure) : Prog Status.t :=
  enable_form $
  show_alert (alert (__ "Import failed" []) "red") $
  msgprint (box "Import Error"
                (js_or (err_message err) (JStr "Import failed with error")) "red") $
  skip.

Definition question : Text :=
  __ "Are you sure you want to trigger a manual import?<br><br>This may take some time depending on the feed size." [].

Definition trigger_manual_import (frm : Form) : Prog Status.t :=
  confirm question
    (show_alert (alert (__ "Starting import..." []) "blue") $
     disable_form $
     call "trigger_manual_import" (doc frm) [] callback error $
     skip) $
  skip.

End ManualImport.

Definition view_import_logs (frm : Form) : Prog unit :=
  set_route [ "List"; "XML Import Log" ] $ skip.

Definition refresh (frm : Form) : list Button :=
  [ {| label := __ "Test Connection" [];
       group := Some (__ "Actions" []);
       on_click := TestConnection.test_xml_connection |} ] ++
  (if truthy (enabled (doc frm)) && truthy (xml_feed_url (doc frm)) then
     [ {| label := __ "Manual Import" [];
          group := Some (__ "Actions" []);
          on_click := ManualImport.trigger_manual_import |} ]
   else []) ++
  [ {| label := __ "View Import Logs" [];
       group := Some (__ "Actions" []);
       on_click := view_import_logs |} ].

(** The [enabled] and [xml_feed_url] handlers: [frm.refresh()]. *)
Definition field_changed (frm : Form) : Prog unit := refresh_form $ skip.

Definition script : Script :=
  {| doctype := "XML Import Settings";
     Frappe.refresh := refresh;
     on_field := [ ("enabled", field_changed); ("xml_feed_url", field_changed) ] |}.

End XmlImportSettings.

(** ** The three scripts together *)

Definition scripts `{JsRuntime} : list Script :=
  [ XmlImportConfiguration.script; XmlImportConfigurationShort.script; XmlImportSettings.script ].

(** A click on a button the [refresh] handler added for [shown], with the form
    as it is at the click, or a change of a field the script handles; and the
    events each leads to in an environment. *)
Inductive Action (s : Script) : Type :=
| Click (shown : Form) (b : Button) (added : b ∈ refresh s shown)
        (frm : Form) (env : Env (payload b))
| Change (field : string) (handler : Form -> Prog unit)
         (handled : (field, handler) ∈ on_field s)
         (frm : Form) (env : Env unit).

Definition events {s : Script} (a : Action s) : list Event :=
  match a with
  | Click _ _ b _ frm env => trace env (on_click b frm)
  | Change _ _ handler _ frm env => trace env (handler frm)
  end.

(** The server method [m] is dispatched by script [s]: some action on its form
    leads to a call of [m]. *)
Definition dispatches (s : Script) (m : string) : Prop :=
  exists a : Action s, m ∈ methods_called (events a).

(** ** Vocabulary of the statements *)

(** [needle] occurs in [hay]; [s] ends with [suffix]. *)
Definition contains (needle hay : string) : Prop :=
  exists pre post, hay = pre +:+ needle +:+ post.

Definition ends_with (suffix s : string) : Prop :=
  exists pre, s = pre +:+ suffix.

Definition chars (s : string) : list Ascii.ascii := String.list_ascii_of_string s.

(** The characters of the decimal numeral of an integer. *)
Definition numeral_char (c : Ascii.ascii) : Prop := c ∈ chars "0123456789-".

(** [part] is a run of consecutive entries of [whole]; [part] opens [whole]. *)
Definition segment {A : Type} (part whole : list A) : Prop :=
  exists pre post, whole = pre ++ part ++ post.

Definition starts {A : Type} (part whole : list A) : Prop :=
  exists post, whole = part ++ post.

(** [piece] is a table row whose first cell is [label]. *)
Definition row_labelled (label piece : string) : Prop :=
  exists cls cell, piece = tr label cls cell.

(** Among [buttons] there is one labelled [text]. *)
Definition has_button (text : string) (buttons : list Button) : Prop :=
  exists b, b ∈ buttons /\ label b = __ text [].

(** The methods the server offers to the forms. *)
Definition server_methods : gset string :=
  {[ "trigger_manual_import"; "check_stream_length"; "debug_xml_feed";
     "aggressive_import_check"; "import_from_pasted_content"; "test_connection" ]}.

(** Every call a handler can make, whatever its callbacks receive, is of a
    method in [S]. *)
Inductive only_calls {M : Type} (S : string -> Prop) : Prog M -> Prop :=
| only_skip : only_calls S skip
| only_throw e : only_calls S (throw e)
| only_console_log label k : only_calls S k -> only_calls S (console_log label k)
| only_msgprint m k : only_calls S k -> only_calls S (msgprint m k)
| only_show_alert a k : only_calls S k -> only_calls S (show_alert a k)
| only_set_route route k : only_calls S k -> only_calls S (set_route route k)
| only_reload_doc k : only_calls S k -> only_calls S (reload_doc k)
| only_disable_form k : only_calls S k -> only_calls S (disable_form k)
| only_enable_form k : only_calls S k -> only_calls S (enable_form k)
| only_refresh_form k : only_calls S k -> only_calls S (refresh_form k)
| only_confirm text on_yes k :
    only_calls S on_yes -> only_calls S k -> only_calls S (confirm text on_yes k)
| only_call method d args callback error k :
    S method ->
    (forall r, only_calls S (callback r)) ->
    (forall err, only_calls S (error err)) ->
    only_calls S k ->
    only_calls S (call method d args callback error k)
| only_dialog_show d primary_action k :
    (forall values, only_calls S (primary_action values)) ->
    only_calls S k ->
    only_calls S (dialog_show d primary_action k)
| only_dialog_hide k : only_calls S k -> only_calls S (dialog_hide k).

(** The wide message box in which a callback shows the pieces it appended. *)
Definition report (title : string) (pieces : list string) : Event :=
  EvMsgprint {| Msg.title := Some (__ title []);
                Msg.message := Raw (JStr (html pieces));
                Msg.indicator := None;
                Msg.wide := true |}.

(** The events of the settings form, by name. *)
Module Shown.
Import XmlImportSettings.

Definition import_succeeded (text : JsVal) : list Event :=
  [ EvAlert (alert (__ "Import completed successfully" []) "green");
    EvMsgprint (box "Import Successful" text "green");
    EvReload ].

Definition import_failed (text : JsVal) : list Event :=
  [ EvAlert (alert (__ "Import failed" []) "red");
    EvMsgprint (box "Import Failed" text "red") ].

Definition import_error (err : Failure) : list Event :=
  [ EvAlert (alert (__ "Import failed" []) "red");
    EvMsgprint (box "Import Error"
                    (js_or (err_message err) (JStr "Import failed with error")) "red") ].

Definition success_dialog (text : JsVal) : Event :=
  EvMsgprint (box "Connection Test Successful" text "green").

Definition failure_dialog (text : JsVal) : Event :=
  EvMsgprint (box "Connection Test Failed" text "red").

End Shown.
Import Shown.

(** ** Vocabulary of the further properties *)

(** Every event a handler can lead to, whatever its callbacks receive,
    satisfies [P]. *)
Inductive emits_only {M : Type} (P : Event -> Prop) : Prog M -> Prop :=
| emits_skip : emits_only P skip
| emits_throw e : P (EvThrow e) -> emits_only P (throw e)
| emits_console_log label k :
    P (EvLog label) -> emits_only P k -> emits_only P (console_log label k)
| emits_msgprint m k : P (EvMsgprint m) -> emits_only P k -> emits_only P (msgprint m k)
| emits_show_alert a k : P (EvAlert a) -> emits_only P k -> emits_only P (show_alert a k)
| emits_set_route route k :
    P (EvRoute route) -> emits_only P k -> emits_only P (set_route route k)
| emits_reload_doc k : P EvReload -> emits_only P k -> emits_only P (reload_doc k)
| emits_disable_form k : P EvDisable -> emits_only P k -> emits_only P (disable_form k)
| emits_enable_form k : P EvEnable -> emits_only P k -> emits_only P (enable_form k)
| emits_refresh_form k : P EvRefresh -> emits_only P k -> emits_only P (refresh_form k)
| emits_confirm text on_yes k :
    P (EvConfirm text) -> emits_only P on_yes -> emits_only P k ->
    emits_only P (confirm text on_yes k)
| emits_call method d args callback error k :
    P (EvCall method d args) ->
    (forall r, emits_only P (callback r)) ->
    (forall err, emits_only P (error err)) ->
    emits_only P k ->
    emits_only P (call method d args callback error k)
| emits_dialog_show d primary_action k :
    P (EvDialogShow d) ->
    (forall values, emits_only P (primary_action values)) ->
    emits_only P k ->
    emits_only P (dialog_show d primary_action k)
| emits_dialog_hide k : P EvDialogHide -> emits_only P k -> emits_only P (dialog_hide k).

(** An event that is no call. *)
Definition no_call (e : Event) : Prop :=
  match e with EvCall _ _ _ => False | _ => True end.

(** A handler that calls the server at most once, whatever the operator
    and the server do: the one call is made by the handler itself, after a
    question, or from the primary action of a dialog, and nothing that runs
    besides or after it calls again. *)
Inductive calls_once {M : Type} : Prog M -> Prop :=
| once_quiet p : emits_only no_call p -> calls_once p
| once_console_log label k : calls_once k -> calls_once (console_log label k)
| once_msgprint m k : calls_once k -> calls_once (msgprint m k)
| once_show_alert a k : calls_once k -> calls_once (show_alert a k)
| once_set_route route k : calls_once k -> calls_once (set_route route k)
| once_reload_doc k : calls_once k -> calls_once (reload_doc k)
| once_disable_form k : calls_once k -> calls_once (disable_form k)
| once_enable_form k : calls_once k -> calls_once (enable_form k)
| once_refresh_form k : calls_once k -> calls_once (refresh_form k)
| once_dialog_hide k : calls_once k -> calls_once (dialog_hide k)
| once_confirm text on_yes k :
    calls_once on_yes -> emits_only no_call k -> calls_once (confirm text on_yes k)
| once_call method d args callback error k :
    (forall r, emits_only no_call (callback r)) ->
    (forall err, emits_only no_call (error err)) ->
    emits_only no_call k ->
    calls_once (call method d args callback error k)
| once_dialog_show d primary_action k :
    (forall values, calls_once (primary_action values)) ->
    emits_only no_call k ->
    calls_once (dialog_show d primary_action k).

(** In a trace, every reload of the document comes after a call; [called]
    tells whether a call came before the trace. *)
Fixpoint reloads_follow (called : bool) (t : list Event) : bool :=
  match t with
  | [] => true
  | EvReload :: t => called && reloads_follow called t
  | EvCall _ _ _ :: t => reloads_follow true t
  | _ :: t => reloads_follow called t
  end.

(** A handler that reloads the document in the callbacks of a call only. *)
Inductive reloads_in_callbacks {M : Type} : Prog M -> Prop :=
| guarded_plain p : emits_only (fun e => e <> EvReload) p -> reloads_in_callbacks p
| guarded_console_log label k :
    reloads_in_callbacks k -> reloads_in_callbacks (console_log label k)
| guarded_msgprint m k : reloads_in_callbacks k -> reloads_in_callbacks (msgprint m k)
| guarded_show_alert a k : reloads_in_callbacks k -> reloads_in_callbacks (show_alert a k)
| guarded_set_route route k :
    reloads_in_callbacks k -> reloads_in_callbacks (set_route route k)
| guarded_disable_form k : reloads_in_callbacks k -> reloads_in_callbacks (disable_form k)
| guarded_enable_form k : reloads_in_callbacks k -> reloads_in_callbacks (enable_form k)
| guarded_refresh_form k : reloads_in_callbacks k -> reloads_in_callbacks (refresh_form k)
| guarded_dialog_hide k : reloads_in_callbacks k -> reloads_in_callbacks (dialog_hide k)
| guarded_confirm text on_yes k :
    reloads_in_callbacks on_yes -> reloads_in_callbacks k ->
    reloads_in_callbacks (confirm text on_yes k)
| guarded_call method d args callback error k :
    reloads_in_callbacks (call method d args callback error k)
| guarded_dialog_show d primary_action k :
    (forall values, reloads_in_callbacks (primary_action values)) ->
    reloads_in_callbacks k ->
    reloads_in_callbacks (dialog_show d primary_action k).

(** A request that brings nothing to show: it failed, or the reply carries an
    exception or no message. *)
Definition unusable {M : Type} (o : Outcome M) : Prop :=
  match o with
  | Failed _ => True
  | Replied r => truthy (exc r) = true \/ message r = None
  end.

(** A click on the [i]-th button added for [shown]. *)
Definition click_at (s : Script) (shown : Form) (i : nat) (b : Button)
    (added : refresh s shown !! i = Some b) (frm : Form) (env : Env (payload b))
  : Action s :=
  Click s shown b (list_elem_of_lookup_2 _ _ _ added) frm env.


(** The question of the configuration form's manual import, and the notice
    of its start. *)
Definition import_question (frm : Form) : Text :=
  __ "Are you sure you want to trigger a manual import for {0}?" [ name (doc frm) ].

Definition import_notice : Event :=
  EvMsgprint (Msg.plain (__ "Manual import has been triggered successfully." [])).

(** A reply without an exception. *)
Definition clean {M : Type} (o : Outcome M) : Prop :=
  match o with
  | Replied r => truthy (exc r) = false
  | Failed _ => False
  end.

(** The message boxes of a trace, in order. *)
Definition boxes (t : list Event) : list Msg.t :=
  omap (fun e => match e with EvMsgprint m => Some m | _ => None end) t.

(** An event that leaves the form as it is. *)
Definition keeps_form (e : Event) : Prop := e <> EvDisable /\ e <> EvEnable.

(** How often the piece [x] was appended. *)
Definition occurrences (x : string) (pieces : list string) : nat :=
  length (filter (fun p => p = x) pieces).

(** The pieces hold one table: it is opened once, and closed once, later. *)
Definition one_table (pieces : list string) : Prop :=
  occurrences XmlImportConfiguration.table_open pieces = 1 /\
  occurrences "</table>" pieces = 1 /\
  exists before after,
    pieces = before ++ XmlImportConfiguration.table_open :: after /\ "</table>" ∈ after.

(** Whether the operator of an action confirms the question [text]. *)
Definition agreed {s : Script} (a : Action s) (text : Text) : bool :=
  match a with
  | Click _ _ _ _ _ env => confirms env text
  | Change _ _ _ _ _ env => confirms env text
  end.

(** The handler an action runs has the property [Q]. *)
Definition handled_by {s : Script} (a : Action s) (Q : forall M : Type, Prog M -> Prop)
  : Prop :=
  match a with
  | Click _ _ b _ frm _ => Q (payload b) (on_click b frm)
  | Change _ _ handler _ frm _ => Q unit (handler frm)
  end.

(** ** Inputs of the closed examples *)

(** A runtime for examples whose inputs hold no numeric strings: ASCII
    letters lowered, no string read as a number. *)
Definition ascii_lower (c : Ascii.ascii) : Ascii.ascii :=
  let n := Ascii.nat_of_ascii c in
  if (65 <=? n)%nat && (n <=? 90)%nat then Ascii.ascii_of_nat (n + 32) else c.

Fixpoint lower (s : string) : string :=
  match s with
  | EmptyString => EmptyString
  | String c s => String (ascii_lower c) (lower s)
  end.

Definition example_runtime : JsRuntime :=
  {| StringToNumber := fun _ => None; toLowerCase := lower |}.

(** A saved, enabled configuration with a feed URL. *)
Definition saved_doc : Doc :=
  {| name := JStr "Feed A";
     enabled := JBool true;
     xml_feed_url := JStr "https://feed.example/orders.xml";
     import_type := "Orders" |}.

Definition saved_form : Form := {| doc := saved_doc; is_new := false |}.

(** An operator who agrees to everything and presses the primary action of
    the dialog with some XML pasted, and one who declines; every request ends
    as [o]. *)
Definition agreeing {M : Type} (o : Outcome M) : Env M :=
  {| confirms := fun _ => true;
     outcome := fun _ _ _ => o;
     presses := fun _ => Some (Some {| Dialog.xml_content := JStr "<orders/>" |}) |}.

Definition declining {M : Type} (o : Outcome M) : Env M :=
  {| confirms := fun _ => false;
     outcome := fun _ _ _ => o;
     presses := fun _ => None |}.

Definition lost : Failure := {| err_message := JStr "Network error" |}.

(** Two attempts of an aggressive check: nothing yet, then three orders and
    the import. *)
Definition quiet_attempt : XmlImportConfiguration.AggressiveImportCheck.Attempt :=
  {| XmlImportConfiguration.AggressiveImportCheck.attempt := JNum 1;
     XmlImportConfiguration.AggressiveImportCheck.timestamp := JStr "10:00:00";
     XmlImportConfiguration.AggressiveImportCheck.content_length := JNum 38;
     XmlImportConfiguration.AggressiveImportCheck.order_count := JNum 0;
     XmlImportConfiguration.AggressiveImportCheck.error := JNull;
     XmlImportConfiguration.AggressiveImportCheck.has_orders := JBool false;
     XmlImportConfiguration.AggressiveImportCheck.import_triggered := JBool false |}.

Definition lucky_attempt : XmlImportConfiguration.AggressiveImportCheck.Attempt :=
  {| XmlImportConfiguration.AggressiveImportCheck.attempt := JNum 2;
     XmlImportConfiguration.AggressiveImportCheck.timestamp := JStr "10:00:10";
     XmlImportConfiguration.AggressiveImportCheck.content_length := JNum 2048;
     XmlImportConfiguration.AggressiveImportCheck.order_count := JNum 3;
     XmlImportConfiguration.AggressiveImportCheck.error := JNull;
     XmlImportConfiguration.AggressiveImportCheck.has_orders := JBool true;
     XmlImportConfiguration.AggressiveImportCheck.import_triggered := JBool true |}.

Definition two_attempts : XmlImportConfiguration.AggressiveImportCheck.Result :=
  {| XmlImportConfiguration.AggressiveImportCheck.total_attempts := JNum 2;
     XmlImportConfiguration.AggressiveImportCheck.results := [ quiet_attempt; lucky_attempt ] |}.

(** A feed debug result of a fetch that failed with an empty body: the error
    is set, and so are the two flags. *)
Definition failed_fetch : XmlImportConfiguration.DebugXmlFeed.Result :=
  {| XmlImportConfiguration.DebugXmlFeed.url := JStr "https://feed.example/orders.xml";
     XmlImportConfiguration.DebugXmlFeed.error := JStr "HTTP 503 Service Unavailable";
     XmlImportConfiguration.DebugXmlFeed.status_code := JNum 503;
     XmlImportConfiguration.DebugXmlFeed.content_length := JNum 2;
     XmlImportConfiguration.DebugXmlFeed.content_length_stripped := JNum 0;
     XmlImportConfiguration.DebugXmlFeed.headers := {[ "content-type" := JStr "text/html" ]};
     XmlImportConfiguration.DebugXmlFeed.auth_used := JBool false;
     XmlImportConfiguration.DebugXmlFeed.is_mostly_whitespace := JBool true;
     XmlImportConfiguration.DebugXmlFeed.is_likely_error := JBool true;
     XmlImportConfiguration.DebugXmlFeed.raw_content := JStr "  ";
     XmlImportConfiguration.DebugXmlFeed.content := JStr "  ";
     XmlImportConfiguration.DebugXmlFeed.suggested_actions := None |}.

(** The same feed answering with a page of blanks: no error, and the
    whitespace flag set. *)
Definition blank_fetch : XmlImportConfiguration.DebugXmlFeed.Result :=
  {| XmlImportConfiguration.DebugXmlFeed.url := JStr "https://feed.example/orders.xml";
     XmlImportConfiguration.DebugXmlFeed.error := JNull;
     XmlImportConfiguration.DebugXmlFeed.status_code := JNum 200;
     XmlImportConfiguration.DebugXmlFeed.content_length := JNum 40;
     XmlImportConfiguration.DebugXmlFeed.content_length_stripped := JNum 0;
     XmlImportConfiguration.DebugXmlFeed.headers := ∅;
     XmlImportConfiguration.DebugXmlFeed.auth_used := JBool true;
     XmlImportConfiguration.DebugXmlFeed.is_mostly_whitespace := JBool true;
     XmlImportConfiguration.DebugXmlFeed.is_likely_error := JBool false;
     XmlImportConfiguration.DebugXmlFeed.raw_content := JStr "    ";
     XmlImportConfiguration.DebugXmlFeed.content := JStr "    ";
     XmlImportConfiguration.DebugXmlFeed.suggested_actions :=
       Some [ JStr "Check the feed URL" ] |}.

(** The analysis of a feed with one order. *)
Definition valid_feed : XmlImportConfiguration.CheckStreamLength.Result :=
  {| XmlImportConfiguration.CheckStreamLength.content_length := JNum 812;
     XmlImportConfiguration.CheckStreamLength.content_size_human := JStr "812 B";
     XmlImportConfiguration.CheckStreamLength.xml_valid := JBool true;
     XmlImportConfiguration.CheckStreamLength.root_tag := JStr "orders";
     XmlImportConfiguration.CheckStreamLength.element_count := JNum 1;
     XmlImportConfiguration.CheckStreamLength.sample_elements :=
       Some [ {| XmlImportConfiguration.CheckStreamLength.order_id := JNum 1001;
                 XmlImportConfiguration.CheckStreamLength.status := JStr "paid";
                 XmlImportConfiguration.CheckStreamLength.item_count := JNum 2;
                 XmlImportConfiguration.CheckStreamLength.note := JUndefined |} ];
     XmlImportConfiguration.CheckStreamLength.parse_error := JUndefined;
     XmlImportConfiguration.CheckStreamLength.first_100_chars := JStr "<orders><order>";
     XmlImportConfiguration.CheckStreamLength.first_500_chars := JUndefined;
     XmlImportConfiguration.CheckStreamLength.full_xml_content := JUndefined |}.

(** The import of a pasted text that is no XML. *)
Definition bad_paste : XmlImportConfiguration.ImportFromPastedContent.Result :=
  {| XmlImportConfiguration.ImportFromPastedContent.content_length := JNum 9;
     XmlImportConfiguration.ImportFromPastedContent.xml_valid := JBool false;
     XmlImportConfiguration.ImportFromPastedContent.root_tag := JUndefined;
     XmlImportConfiguration.ImportFromPastedContent.element_count := JUndefined;
     XmlImportConfiguration.ImportFromPastedContent.import_status := JUndefined;
     XmlImportConfiguration.ImportFromPastedContent.processed_items := None;
     XmlImportConfiguration.ImportFromPastedContent.errors := None;
     XmlImportConfiguration.ImportFromPastedContent.debug_info := None;
     XmlImportConfiguration.ImportFromPastedContent.parse_error :=
       JStr "syntax error: line 1, column 0" |}.

(** A settings document in which no URL was entered yet. *)
Definition blank_form : Form :=
  {| doc := {| name := JStr "XML Import Settings";
               enabled := JNum 0;
               xml_feed_url := JStr "";
               import_type := "Orders" |};
     is_new := false |}.

(** A reply of the settings form's manual import that reports success. *)
Definition imported : Response XmlImportSettings.Status.t :=
  {| exc := JUndefined;
     message := Some {| XmlImportSettings.Status.success := JBool true;
                        XmlImportSettings.Status.message := JStr "Imported 3 orders" |} |}.

(** A reply of the configuration form's manual import: no exception, and
    nothing returned. *)
Definition started : Response JsVal := {| exc := JUndefined; message := None |}.

(** The analysis of a feed that is valid and empty. *)
Definition empty_feed : XmlImportConfiguration.CheckStreamLength.Result :=
  {| XmlImportConfiguration.CheckStreamLength.content_length := JNum 17;
     XmlImportConfiguration.CheckStreamLength.content_size_human := JStr "17 B";
     XmlImportConfiguration.CheckStreamLength.xml_valid := JBool true;
     XmlImportConfiguration.CheckStreamLength.root_tag := JStr "orders";
     XmlImportConfiguration.CheckStreamLength.element_count := JNum 0;
     XmlImportConfiguration.CheckStreamLength.sample_elements := Some [];
     XmlImportConfiguration.CheckStreamLength.parse_error := JUndefined;
     XmlImportConfiguration.CheckStreamLength.first_100_chars := JStr "<orders></orders>";
     XmlImportConfiguration.CheckStreamLength.first_500_chars := JUndefined;
     XmlImportConfiguration.CheckStreamLength.full_xml_content := JStr "<orders></orders>" |}.

(** The import of a pasted document with one order. *)
Definition good_paste : XmlImportConfiguration.ImportFromPastedContent.Result :=
  {| XmlImportConfiguration.ImportFromPastedContent.content_length := JNum 64;
     XmlImportConfiguration.ImportFromPastedContent.xml_valid := JBool true;
     XmlImportConfiguration.ImportFromPastedContent.root_tag := JStr "orders";
     XmlImportConfiguration.ImportFromPastedContent.element_count := JNum 1;
     XmlImportConfiguration.ImportFromPastedContent.import_status := JStr "Success";
     XmlImportConfiguration.ImportFromPastedContent.processed_items :=
       Some [ JStr "Order 1001" ];
     XmlImportConfiguration.ImportFromPastedContent.errors := None;
     XmlImportConfiguration.ImportFromPastedContent.debug_info := None;
     XmlImportConfiguration.ImportFromPastedContent.parse_error := JUndefined |}.

(** A reply that carries [result]. *)
Definition carrying {M : Type} (result : M) : Response M :=
  {| exc := JUndefined; message := Some result |}.

(** The feed debug button, as the configuration form adds it. *)
Definition debug_button : Button :=
  {| label := __ "🐛 Debug XML Feed" [];
     group := None;
     on_click := XmlImportConfiguration.DebugXmlFeed.on_click |}.

(** An attempt whose order count came as a text that reads like the words
    of a triggered import, with no import triggered. *)
Definition echo_attempt : XmlImportConfiguration.AggressiveImportCheck.Attempt :=
  {| XmlImportConfiguration.AggressiveImportCheck.attempt := JNum 1;
     XmlImportConfiguration.AggressiveImportCheck.timestamp := JStr "10:00:00";
     XmlImportConfiguration.AggressiveImportCheck.content_length := JNum 2048;
     XmlImportConfiguration.AggressiveImportCheck.order_count := JStr "Import triggered!";
     XmlImportConfiguration.AggressiveImportCheck.error := JNull;
     XmlImportConfiguration.AggressiveImportCheck.has_orders := JBool true;
     XmlImportConfiguration.AggressiveImportCheck.import_triggered := JBool false |}.

(** The import of a pasted document of two orders, one of which failed. *)
Definition partial_paste : XmlImportConfiguration.ImportFromPastedContent.Result :=
  {| XmlImportConfiguration.ImportFromPastedContent.content_length := JNum 128;
     XmlImportConfiguration.ImportFromPastedContent.xml_valid := JBool true;
     XmlImportConfiguration.ImportFromPastedContent.root_tag := JStr "orders";
     XmlImportConfiguration.ImportFromPastedContent.element_count := JNum 2;
     XmlImportConfiguration.ImportFromPastedContent.import_status := JStr "Partial";
     XmlImportConfiguration.ImportFromPastedContent.processed_items :=
       Some [ JStr "Order 1001" ];
     XmlImportConfiguration.ImportFromPastedContent.errors :=
       Some [ JStr "Order 1002: no customer" ];
     XmlImportConfiguration.ImportFromPastedContent.debug_info :=
       Some {| XmlImportConfiguration.ImportFromPastedContent.debug_root_tag := JStr "orders";
               XmlImportConfiguration.ImportFromPastedContent.direct_children :=
                 Some [ JStr "order" ];
               XmlImportConfiguration.ImportFromPastedContent.total_children := JNum 2;
               XmlImportConfiguration.ImportFromPastedContent.all_unique_tags :=
                 Some [ JStr "order"; JStr "id" ] |};
     XmlImportConfiguration.ImportFromPastedContent.parse_error := JUndefined |}.

(** A fetch that brought a page of markup instead of the feed. *)
Definition page_fetch : XmlImportConfiguration.DebugXmlFeed.Result :=
  {| XmlImportConfiguration.DebugXmlFeed.url := JStr "https://feed.example/orders.xml";
     XmlImportConfiguration.DebugXmlFeed.error := JNull;
     XmlImportConfiguration.DebugXmlFeed.status_code := JNum 200;
     XmlImportConfiguration.DebugXmlFeed.content_length := JNum 13;
     XmlImportConfiguration.DebugXmlFeed.content_length_stripped := JNum 13;
     XmlImportConfiguration.DebugXmlFeed.headers := {[ "content-type" := JStr "text/html" ]};
     XmlImportConfiguration.DebugXmlFeed.auth_used := JBool false;
     XmlImportConfiguration.DebugXmlFeed.is_mostly_whitespace := JBool false;
     XmlImportConfiguration.DebugXmlFeed.is_likely_error := JBool true;
     XmlImportConfiguration.DebugXmlFeed.raw_content := JStr "Access denied";
     XmlImportConfiguration.DebugXmlFeed.content := JStr "Access denied";
     XmlImportConfiguration.DebugXmlFeed.suggested_actions :=
       Some [ JStr "Check the credentials"; JStr "Check the feed URL" ] |}.

(** * Properties *)

(** ** Tactics *)

(** Membership in a list written out: found by search, refuted entry by
    entry. *)
Ltac member := simpl; repeat constructor.

Ltac no_member H :=
  simpl in H;
  repeat (apply elem_of_cons in H as [H | H]; [discriminate H |]);
  by apply elem_of_nil in H.

(** Two pieces of markup that differ in the text written out in the script. *)
Ltac differ H :=
  cbv [tr attr dq nl LF TAB tabs String.append
       XmlImportConfiguration.table_open
       XmlImportConfiguration.DebugXmlFeed.whitespace_row
       XmlImportConfiguration.DebugXmlFeed.likely_error_row
       XmlImportConfiguration.DebugXmlFeed.bullet
       XmlImportConfiguration.ImportFromPastedContent.bullet] in H;
  discriminate H.

(** A membership hypothesis split along the appended pieces, dropping the
    pieces that differ from the one looked for. *)
Ltac sift H :=
  repeat match type of H with
  | _ ∈ _ ++ _ => apply elem_of_app in H as [H | H]
  | _ ∈ _ :: _ => apply elem_of_cons in H as [H | H]
  | _ ∈ [] => by apply elem_of_nil in H
  | _ ∈ _ <$> _ => let x := fresh "entry" in apply list_elem_of_fmap in H as (x & H & _)
  | _ = _ => differ H
  end.

(** A membership hypothesis among buttons or scripts, one case per entry. *)
Ltac each_entry H :=
  repeat match type of H with
  | _ ∈ _ ++ _ => apply elem_of_app in H as [H | H]
  | _ ∈ _ :: _ => apply elem_of_cons in H as [H | H]
  | _ ∈ [] => by apply elem_of_nil in H
  | _ ∈ (if ?c then _ else _) => destruct c eqn:?
  end.

Create HintDb pieces.
Create HintDb segments.

(** A piece, or a run of pieces, found among the appended ones. *)
Ltac shown :=
  lazymatch goal with
  | |- _ ∈ _ => solve [ eauto 40 with pieces nocore ]
  end.

Ltac run_shown :=
  rewrite <- ?app_assoc;
  lazymatch goal with
  | |- segment _ _ => solve [ eauto 30 with segments nocore ]
  end.

(** A handler constructor by constructor, its callbacks case by case. *)
Ltac audit :=
  repeat first
    [ progress intros
    | apply only_skip | apply only_throw
    | apply only_console_log | apply only_msgprint | apply only_show_alert
    | apply only_set_route | apply only_reload_doc | apply only_disable_form
    | apply only_enable_form | apply only_refresh_form | apply only_dialog_hide
    | apply only_confirm | apply only_dialog_show
    | apply only_call; [ unfold server_methods; set_solver | | | ]
    | match goal with
      | |- only_calls _ (if ?c then _ else _) => destruct c
      | |- only_calls _ (match ?c with _ => _ end) => destruct c
      end ].

(** ** Strings and lists of pieces *)

Section StringFacts.

Lemma append_cons (c : Ascii.ascii) (s t : string) : String c s +:+ t = String c (s +:+ t).
Proof. reflexivity. Qed.

Lemma append_nil_r (s : string) : s +:+ "" = s.
Proof.
  induction s as [|c s IH]; [reflexivity |]. by rewrite append_cons, IH.
Qed.

Lemma append_assoc (a b c : string) : (a +:+ b) +:+ c = a +:+ b +:+ c.
Proof.
  induction a as [|x a IH]; [reflexivity |]. by rewrite !append_cons, IH.
Qed.

Lemma chars_app (a b : string) : chars (a +:+ b) = chars a ++ chars b.
Proof.
  induction a as [|x a IH]; [reflexivity |].
  rewrite append_cons. simpl. by rewrite <- IH.
Qed.

Lemma contains_chars (needle hay : string) (c : Ascii.ascii) :
  contains needle hay -> c ∈ chars needle -> c ∈ chars hay.
Proof.
  intros (pre & post & ->) Hc. rewrite !chars_app.
  apply elem_of_app. right. apply elem_of_app. by left.
Qed.

Lemma ends_with_rev (suffix s : string) :
  ends_with suffix s -> exists front, rev (chars s) = rev (chars suffix) ++ front.
Proof.
  intros (pre & ->). exists (rev (chars pre)). by rewrite chars_app, rev_app_distr.
Qed.

Lemma html_cons (p : string) (ps : list string) : html (p :: ps) = p +:+ html ps.
Proof.
  unfold html. destruct ps as [|q ps]; [by rewrite append_nil_r | reflexivity].
Qed.

Lemma html_app (a b : list string) : html (a ++ b) = html a +:+ html b.
Proof.
  induction a as [|x a IH]; [reflexivity |].
  rewrite <- app_comm_cons, !html_cons, IH. by rewrite append_assoc.
Qed.

(** A piece appended to [message] is part of the markup shown. *)
Lemma piece_shown (p : string) (ps : list string) : p ∈ ps -> contains p (html ps).
Proof.
  intros (pre & post & ->)%list_elem_of_split.
  exists (html pre), (html post). by rewrite html_app, html_cons.
Qed.

(** What a [forEach] that appends has appended in the end. *)
Lemma foldl_snoc {A : Type} (f : A -> string) (l : list A) (acc : list string) :
  foldl (fun message x => message ++ [ f x ]) acc l = acc ++ (f <$> l).
Proof.
  revert acc. induction l as [|x l IH]; intros acc; simpl.
  - by rewrite app_nil_r.
  - by rewrite IH, <- app_assoc.
Qed.

Lemma foldl_app {A : Type} (f : A -> list string) (l : list A) (acc : list string) :
  foldl (fun message x => message ++ f x) acc l = acc ++ concat (f <$> l).
Proof.
  revert acc. induction l as [|x l IH]; intros acc; simpl.
  - by rewrite app_nil_r.
  - by rewrite IH, <- app_assoc.
Qed.

Lemma piece_left (p : string) (a b : list string) : p ∈ a -> p ∈ a ++ b.
Proof. intros. apply elem_of_app. by left. Qed.

Lemma piece_right (p : string) (a b : list string) : p ∈ b -> p ∈ a ++ b.
Proof. intros. apply elem_of_app. by right. Qed.

(** The decimal numeral of an integer is made of digits and a sign. *)
Lemma string_of_uint_chars (d : Decimal.uint) :
  Forall numeral_char (chars (NilEmpty.string_of_uint d)).
Proof.
  induction d; simpl; constructor; try assumption; unfold numeral_char; member.
Qed.

Lemma numeral_chars (n : Z) :
  Forall numeral_char (chars (NilZero.string_of_int (Z.to_int n))).
Proof.
  assert (U : forall d, Forall numeral_char (chars (NilZero.string_of_uint d))).
  { intros d. unfold NilZero.string_of_uint.
    destruct d; try apply string_of_uint_chars.
    constructor; [unfold numeral_char; member | constructor]. }
  unfold NilZero.string_of_int. destruct (Z.to_int n) as [d|d]; [apply U |].
  simpl. constructor; [unfold numeral_char; member | apply U].
Qed.

(** A row ends with the closing tags of its cell, a line of a list with a
    line break. *)
Lemma row_is_no_line (label : string) (cls : option string) (cell text : string) :
  tr label cls cell <> text +:+ "<br>".
Proof.
  intros E. apply (f_equal (fun s => rev (chars s))) in E. unfold tr in E.
  rewrite !chars_app, !rev_app_distr in E. simpl in E. discriminate E.
Qed.

End StringFacts.

#[local] Hint Resolve list_elem_of_here list_elem_of_further piece_left piece_right : pieces.

Section Segments.

Context {A : Type}.
Implicit Types part whole pre post : list A.

Lemma starts_here part post : starts part (part ++ post).
Proof. by exists post. Qed.

Lemma starts_all part : starts part part.
Proof. exists []. by rewrite app_nil_r. Qed.

Lemma starts_app pre part whole : starts part whole -> starts (pre ++ part) (pre ++ whole).
Proof. intros [post ->]. exists post. by rewrite app_assoc. Qed.

Lemma segment_start part whole : starts part whole -> segment part whole.
Proof. intros [post ->]. by exists [], post. Qed.

Lemma segment_skip pre part whole : segment part whole -> segment part (pre ++ whole).
Proof. intros (a & b & ->). exists (pre ++ a), b. by rewrite app_assoc. Qed.

Lemma segment_inside part whole pre post :
  segment part whole -> segment part (pre ++ whole ++ post).
Proof.
  intros (a & b & ->). exists (pre ++ a), (b ++ post). by rewrite <- !app_assoc.
Qed.

Lemma segment_concat_map {B : Type} (f : B -> list A) (l : list B) (x : B) :
  x ∈ l -> segment (f x) (concat (f <$> l)).
Proof.
  intros (pre & post & ->)%list_elem_of_split.
  exists (concat (f <$> pre)), (concat (f <$> post)).
  by rewrite fmap_app, concat_app.
Qed.

End Segments.

#[local] Hint Resolve starts_here starts_all starts_app segment_start segment_skip : segments.

(** ** Pieces in the markup shown *)

Section Markup.

Lemma contains_refl (s : string) : contains s s.
Proof. exists "", "". by rewrite append_nil_r. Qed.

Lemma contains_here (needle post : string) : contains needle (needle +:+ post).
Proof. by exists "", post. Qed.

Lemma contains_right (needle pre s : string) :
  contains needle s -> contains needle (pre +:+ s).
Proof.
  intros (a & b & ->). exists (pre +:+ a), b. by rewrite append_assoc.
Qed.

Lemma contains_left (needle s post : string) :
  contains needle s -> contains needle (s +:+ post).
Proof.
  intros (a & b & ->). exists a, (b +:+ post). by rewrite !append_assoc.
Qed.

Lemma contains_trans (a b c : string) : contains a b -> contains b c -> contains a c.
Proof. intros Hab (pre & post & ->). by apply contains_right, contains_left. Qed.

Lemma contains_piece (needle piece : string) (pieces : list string) :
  piece ∈ pieces -> contains needle piece -> contains needle (html pieces).
Proof.
  intros (a & b & ->)%piece_shown Hn. by apply contains_right, contains_left.
Qed.

(** A run of pieces is part of the markup as the text it amounts to. *)
Lemma segment_shown (part whole : list string) :
  segment part whole -> contains (html part) (html whole).
Proof.
  intros (pre & post & ->). exists (html pre), (html post). by rewrite !html_app.
Qed.

Lemma html_nil : html [] = "".
Proof. reflexivity. Qed.

End Markup.

(** A row of a report found in the markup shown: the piece among the
    appended ones, and its text. *)
Ltac row label cls :=
  eapply (contains_piece _ (tr label cls _)); [shown | apply contains_refl].

(** The text a run of pieces amounts to, spelt out. *)
Ltac spell :=
  rewrite ?html_app, ?html_cons, ?html_nil, ?append_nil_r, ?append_assoc; reflexivity.

(** ** Handlers and their traces *)

Section Traces.

Context {M : Type}.
Implicit Types (env : Env M) (p k : Prog M) (t : list Event).

Lemma methods_called_app t1 t2 :
  methods_called (t1 ++ t2) = methods_called t1 ++ methods_called t2.
Proof. unfold methods_called. apply omap_app. Qed.

Lemma trace_confirm env text on_yes k :
  trace env (confirm text on_yes k) =
    EvConfirm text :: (run env k).1 ++
    (if confirms env text then trace env on_yes else []) ++ (run env k).2.
Proof. reflexivity. Qed.

Lemma trace_call env method d args callback error k :
  trace env (call method d args callback error k) =
    EvCall method d args :: (run env k).1 ++
    match outcome env method d args with
    | Replied r => trace env (callback r)
    | Failed err => trace env (error err)
    end ++ (run env k).2.
Proof. unfold trace. cbn [run fst snd app]. by destruct (outcome env method d args). Qed.

Lemma trace_dialog_show env d primary_action k :
  trace env (dialog_show d primary_action k) =
    EvDialogShow d :: (run env k).1 ++
    match presses env d with
    | Some values => trace env (primary_action values)
    | None => []
    end ++ (run env k).2.
Proof. unfold trace. cbn [run fst snd app]. by destruct (presses env d). Qed.

(** The methods of a callback registered by a handler, among the methods of
    the handler: used three times below. *)
Lemma in_registered (first_ later last_ : list Event) (S : string -> Prop) (m : string) :
  (forall n, n ∈ methods_called (first_ ++ last_) -> S n) ->
  (forall n, n ∈ methods_called later -> S n) ->
  m ∈ methods_called (first_ ++ later ++ last_) -> S m.
Proof.
  intros Hk Hl. rewrite !methods_called_app.
  intros [Hin | [Hin | Hin]%elem_of_app]%elem_of_app.
  - apply Hk. rewrite methods_called_app. apply elem_of_app. by left.
  - by apply Hl.
  - apply Hk. rewrite methods_called_app. apply elem_of_app. by right.
Qed.

(** A handler calls no method outside the ones its text names: by induction
    on the handler. *)
Lemma only_calls_sound (S : string -> Prop) env p :
  only_calls S p -> forall m, m ∈ methods_called (trace env p) -> S m.
Proof.
  induction 1 as [ | | ? k _ IH | ? k _ IH | ? k _ IH | ? k _ IH | k _ IH | k _ IH
                 | k _ IH | k _ IH | text on_yes k _ IHy _ IH
                 | method d args callback error k Hm _ IHc _ IHe _ IH
                 | d primary_action k _ IHp _ IH | k _ IH ];
    intros called Hin;
    try (by apply elem_of_nil in Hin);
    try (apply IH; exact Hin).
  - rewrite trace_confirm in Hin.
    apply (in_registered (EvConfirm text :: (run env k).1) _ _ S) in Hin; [done | done |].
    destruct (confirms env text); [apply IHy | by intros ? ?%elem_of_nil].
  - rewrite trace_call in Hin.
    apply (in_registered (EvCall method d args :: (run env k).1) _ _ S) in Hin; [done | |].
    + intros n [-> | Hn]%elem_of_cons; [exact Hm | by apply IH].
    + destruct (outcome env method d args); [apply IHc | apply IHe].
  - rewrite trace_dialog_show in Hin.
    apply (in_registered (EvDialogShow d :: (run env k).1) _ _ S) in Hin; [done | done |].
    destruct (presses env d); [apply IHp | by intros ? ?%elem_of_nil].
Qed.

End Traces.

(** ** The aggressive import check: the status of an attempt *)

Section AggressiveImportCheck.

Context `{JsRuntime}.
Import XmlImportConfiguration.AggressiveImportCheck.

Lemma aggressive_check_shown (frm : Form) (r : Response Result) (result : Result)
    (env : Env Result) :
  truthy (exc r) = false -> message r = Some result ->
  trace env (callback frm r) =
    [ EvLog "Aggressive Import Result:";
      report "Aggressive Import Check Results" (pieces result) ] ++
    (if importTriggered result then [ EvReload ] else []).
Proof.
  intros E M. unfold callback. rewrite E, M. cbn [negb].
  by destruct (importTriggered result).
Qed.

Lemma attempt_rows_in_pieces (result : Result) (a : Attempt) :
  a ∈ results result -> segment (attempt_row a) (pieces result).
Proof.
  intros Ha. unfold pieces. rewrite foldl_app.
  destruct (importTriggered result); rewrite <- !app_assoc;
    apply segment_inside, segment_concat_map, Ha.
Qed.

Lemma report_never_ends_triggered (count : string) :
  ~ ends_with " Import triggered!" ("🎉 " +:+ count +:+ " orders found!").
Proof.
  intros [front E]%ends_with_rev.
  rewrite !chars_app, !rev_app_distr in E. simpl in E. discriminate E.
Qed.

Lemma report_of_number_has_no_I (n : Z) :
  "I"%char ∉ chars ("🎉 " +:+ ToString (JNum n) +:+ " orders found!").
Proof.
  rewrite !chars_app. intros [Hc | [Hc | Hc]%elem_of_app]%elem_of_app.
  - no_member Hc.
  - pose proof (numeral_chars n) as D. rewrite Forall_forall in D.
    apply D in Hc. unfold numeral_char in Hc. no_member Hc.
  - no_member Hc.
Qed.

(** The text of the row of an attempt, between its line break and the one
    after it. *)
Lemma attempt_row_text (a : Attempt) :
  html (attempt_row a) =
    nl 11 +:+
    ("<tr>" +:+ nl 12 +:+
     "<td>" +:+ ToString (attempt a) +:+ "</td>" +:+ nl 12 +:+
     "<td>" +:+ ToString (timestamp a) +:+ "</td>" +:+ nl 12 +:+
     "<td>" +:+ (if truthy (content_length a) then ToString (content_length a) else "N/A") +:+
     " bytes</td>" +:+ nl 12 +:+
     "<td>" +:+ (if truthy (order_count a) then ToString (order_count a) else "0") +:+
     "</td>" +:+ nl 12 +:+
     "<td>" +:+ status a +:+ "</td>" +:+ nl 11 +:+
     "</tr>") +:+
    nl 10.
Proof.
  unfold attempt_row, td, js_or.
  destruct (truthy (content_length a)), (truthy (order_count a)); spell.
Qed.

(** C1, as the script has it.  The message box of the aggressive check
    shows the markup the pieces [pieces result] amount to, and in it every
    attempt of the result list has its row, with the number and the time of
    the attempt and, last, the status.  The status follows the precedence: a
    set error gives the error text; otherwise set has_orders gives the order
    count, followed by the words Import triggered! exactly when
    import_triggered is set (and holding these words exactly then when the
    order count is a number); otherwise a content_length above 100 gives
    Empty orders; otherwise No Data. *)
Theorem attempt_status_precedence (frm : Form) (r : Response Result) (result : Result)
    (env : Env Result) (a : Attempt) :
  truthy (exc r) = false -> message r = Some result -> a ∈ results result ->
  exists markup text,
    EvMsgprint {| Msg.title := Some (__ "Aggressive Import Check Results" []);
                  Msg.message := Raw (JStr markup);
                  Msg.indicator := None;
                  Msg.wide := true |} ∈ trace env (callback frm r) /\
    markup = String.concat "" (pieces result) /\
    contains ("<tr>" +:+ nl 12 +:+
              "<td>" +:+ ToString (attempt a) +:+ "</td>" +:+ nl 12 +:+
              "<td>" +:+ ToString (timestamp a) +:+ "</td>" +:+ nl 12 +:+
              "<td>" +:+
              (if truthy (content_length a) then ToString (content_length a) else "N/A") +:+
              " bytes</td>" +:+ nl 12 +:+
              "<td>" +:+ (if truthy (order_count a) then ToString (order_count a) else "0") +:+
              "</td>" +:+ nl 12 +:+
              "<td>" +:+ text +:+ "</td>" +:+ nl 11 +:+
              "</tr>") markup /\
    (truthy (error a) = true ->
       text = "❌ Error: " +:+ ToString (error a) /\
       contains (ToString (error a)) text) /\
    (truthy (error a) = false -> truthy (has_orders a) = true ->
       text = "🎉 " +:+ ToString (order_count a) +:+ " orders found!" +:+
              (if truthy (import_triggered a) then " Import triggered!" else "") /\
       (ends_with " Import triggered!" text <-> truthy (import_triggered a) = true) /\
       (forall n, order_count a = JNum n ->
          (contains "Import triggered!" text <-> truthy (import_triggered a) = true))) /\
    (truthy (error a) = false -> truthy (has_orders a) = false ->
       js_gt (content_length a) 100 = true -> text = "📭 Empty orders") /\
    (truthy (error a) = false -> truthy (has_orders a) = false ->
       js_gt (content_length a) 100 = false -> text = "No Data").
Proof.
  intros E M Ha. exists (html (pieces result)), (status a).
  split; [rewrite (aggressive_check_shown _ _ _ _ E M); unfold report; member |].
  split; [reflexivity |].
  split.
  { apply (contains_trans _ (html (attempt_row a)));
      [| by apply segment_shown, attempt_rows_in_pieces].
    rewrite attempt_row_text. apply contains_right, contains_here. }
  unfold status.
  split; [| split; [| split]].
  - intros ->. split; [reflexivity |].
    exists "❌ Error: ", "". by rewrite append_nil_r.
  - intros -> ->. destruct (truthy (import_triggered a)) eqn:T.
    + split; [by rewrite !append_assoc |]. split; [| intros n En]; split; try done.
      * intros _. by eexists.
      * intros _. exists ("🎉 " +:+ ToString (order_count a) +:+ " orders found! "), "".
        by rewrite append_nil_r, !append_assoc.
    + split; [by rewrite append_nil_r |]. split; [| intros n En]; split; try done.
      * by intros ?%report_never_ends_triggered.
      * intros C. rewrite En in C. exfalso.
        apply (report_of_number_has_no_I n), (contains_chars _ _ _ C). member.
  - by intros -> -> ->.
  - by intros -> -> ->.
Qed.

End AggressiveImportCheck.

(** ** The stream analysis *)

Section CheckStreamLength.

Context `{JsRuntime}.
Import XmlImportConfiguration.CheckStreamLength.

Lemma stream_analysis_shown (frm : Form) (r : Response Result) (result : Result)
    (env : Env Result) :
  truthy (exc r) = false -> message r = Some result ->
  trace env (callback frm r) =
    [ EvLog "XML Stream Analysis Result:";
      report "XML Stream Analysis" (pieces frm result) ].
Proof. intros E M. unfold callback. by rewrite E, M. Qed.

Lemma sample_line_is_no_row (label : string) (sample : Sample) :
  ~ row_labelled label (sample_line sample).
Proof.
  intros (cls & cell & E). unfold sample_line in E.
  destruct (truthy (order_id sample)).
  - differ E.
  - symmetry in E. by apply row_is_no_line in E.
Qed.


End CheckStreamLength.

(** ** The feed debug report *)

Section DebugXmlFeed.

Import XmlImportConfiguration.DebugXmlFeed.

Lemma feed_debug_shown (frm : Form) (r : Response Result) (result : Result)
    (env : Env Result) :
  truthy (exc r) = false -> message r = Some result ->
  trace env (callback frm r) =
    [ EvLog "Debug XML Feed Result:"; report "XML Feed Debug" (pieces result) ].
Proof. intros E M. unfold callback. by rewrite E, M. Qed.

(** The text of the row of the suggestions. *)
Lemma suggestions_text (actions : list JsVal) :
  html ([ "<tr><td><strong>Suggestions:</strong></td><td>" ] ++ (bullet <$> actions) ++
        [ "</td></tr>" ]) =
    "<tr><td><strong>Suggestions:</strong></td><td>" +:+
    String.concat "" ((fun action => "• " +:+ ToString action +:+ "<br>") <$> actions) +:+
    "</td></tr>".
Proof. spell. Qed.



End DebugXmlFeed.

(** ** The pasted-content import report *)

Section ImportFromPastedContent.

Context `{JsRuntime}.
Import XmlImportConfiguration.ImportFromPastedContent.

Lemma pasted_import_shown (frm : Form) (r : Response Result) (result : Result)
    (env : Env Result) :
  truthy (exc r) = false -> message r = Some result ->
  trace env (callback frm r) =
    [ EvLog "Pasted XML Import Result:";
      report "Pasted XML Import Results" (pieces frm result) ] ++
    (if strict_eq (import_status result) (JStr "Success") then [ EvReload ] else []).
Proof.
  intros E M. unfold callback. rewrite E, M. cbn [negb].
  by destruct (strict_eq (import_status result) (JStr "Success")).
Qed.

(** The text of the rows of the processed items and of the errors, and of
    the structure dump. *)
Lemma processed_items_text (items : list JsVal) :
  html ([ "<tr><td><strong>Processed Items:</strong></td><td>" ] ++ (bullet <$> items) ++
        [ "</td></tr>" ]) =
    "<tr><td><strong>Processed Items:</strong></td><td>" +:+
    String.concat "" ((fun item => "• " +:+ ToString item +:+ "<br>") <$> items) +:+
    "</td></tr>".
Proof. spell. Qed.

Lemma errors_text (failures : list JsVal) :
  html ([ "<tr><td><strong>Errors:</strong></td><td " +:+ attr "class" "text-danger" +:+ ">" ] ++
        (bullet <$> failures) ++ [ "</td></tr>" ]) =
    "<tr><td><strong>Errors:</strong></td><td class=" +:+ dq +:+ "text-danger" +:+ dq +:+ ">" +:+
    String.concat "" ((fun error => "• " +:+ ToString error +:+ "<br>") <$> failures) +:+
    "</td></tr>".
Proof. spell. Qed.

Lemma structure_text (d : DebugInfo) :
  html (structure d) =
    "<tr><td><strong>XML Structure:</strong></td><td>" +:+
    "<strong>Root:</strong> " +:+ ToString (debug_root_tag d) +:+ "<br>" +:+
    match direct_children d with
    | Some (name :: names) =>
        "<strong>Direct Children:</strong> " +:+
        String.concat ", "
          (map (fun tag => match tag with JUndefined | JNull => "" | _ => ToString tag end)
               (name :: names)) +:+
        "<br>"
    | _ => ""
    end +:+
    "<strong>Total Children:</strong> " +:+ ToString (total_children d) +:+ "<br>" +:+
    match all_unique_tags d with
    | Some (name :: names) =>
        "<strong>All Tags Found:</strong> " +:+
        String.concat ", "
          (map (fun tag => match tag with JUndefined | JNull => "" | _ => ToString tag end)
               (name :: names)) +:+
        "<br>"
    | _ => ""
    end +:+
    "</td></tr>".
Proof.
  unfold structure.
  destruct (direct_children d) as [[|c cs]|], (all_unique_tags d) as [[|t ts]|];
    cbn [non_empty elements default from_option id]; spell.
Qed.

Lemma structure_is_no_parse_error (d : DebugInfo) (p : string) :
  p ∈ structure d -> ~ row_labelled "Parse Error:" p.
Proof.
  intros Hp (cls & cell & ->). unfold structure in Hp.
  destruct (non_empty (direct_children d)), (non_empty (all_unique_tags d)); sift Hp.
Qed.


End ImportFromPastedContent.

(** ** Confirmation before the aggressive check *)

Section AggressiveConfirmation.

Context `{JsRuntime}.
Import XmlImportConfiguration.AggressiveImportCheck.

Lemma aggressive_callback_quiet (frm : Form) (r : Response Result) (env : Env Result) :
  methods_called (trace env (callback frm r)) = [].
Proof.
  unfold callback.
  destruct (truthy (exc r)), (message r) as [result|]; try reflexivity.
  cbn [negb]. by destruct (importTriggered result).
Qed.

Lemma aggressive_check_trace (frm : Form) (env : Env Result) :
  trace env (on_click frm) =
    EvConfirm question ::
    (if confirms env question then
       EvCall "aggressive_import_check" (doc frm) [] ::
       match outcome env "aggressive_import_check" (doc frm) [] with
       | Replied r => trace env (callback frm r)
       | Failed err => []
       end
     else []).
Proof.
  unfold on_click. rewrite trace_confirm, trace_call. cbn [run fst snd app].
  destruct (confirms env question); [| reflexivity].
  destruct (outcome env _ _ _); by rewrite !app_nil_r.
Qed.

(** C7. A click on the button asks the question, whose text names 5 checks
    and 50 seconds in total; the call of aggressive_import_check follows the
    question when the operator confirms, and no method is called when the
    operator does not. *)
Theorem aggressive_check_needs_confirmation (frm : Form) (env : Env Result) :
  (exists text, question = __ text [] /\
     contains "5 times" text /\ contains "50 seconds total" text) /\
  (confirms env question = false ->
     trace env (on_click frm) = [ EvConfirm question ] /\
     methods_called (trace env (on_click frm)) = []) /\
  (confirms env question = true ->
     exists completion,
       trace env (on_click frm) =
         EvConfirm question :: EvCall "aggressive_import_check" (doc frm) [] :: completion /\
       methods_called completion = []) /\
  ("aggressive_import_check" ∈ methods_called (trace env (on_click frm)) <->
     confirms env question = true).
Proof.
  rewrite aggressive_check_trace. split; [| split; [| split]].
  - eexists. split; [reflexivity |]. split.
    + by exists "This will check the feed ",
        " (50 seconds total) and import immediately if orders are found. Continue?".
    + by exists "This will check the feed 5 times (",
        ") and import immediately if orders are found. Continue?".
  - by intros ->.
  - intros ->. eexists. split; [reflexivity |].
    destruct (outcome env _ _ _); [apply aggressive_callback_quiet | reflexivity].
  - destruct (confirms env question); split; try done.
    + intros _. cbn. apply list_elem_of_here.
    + intros Hin. cbn in Hin. by apply elem_of_nil in Hin.
Qed.

End AggressiveConfirmation.

(** ** The settings form: manual import *)

Section ManualImport.

Import XmlImportSettings XmlImportSettings.ManualImport.

Lemma manual_import_trace (frm : Form) (env : Env Status.t) :
  trace env (trigger_manual_import frm) =
    if confirms env question then
      [ EvConfirm question;
        EvAlert (alert (__ "Starting import..." []) "blue");
        EvDisable;
        EvCall "trigger_manual_import" (doc frm) [] ] ++
      EvEnable ::
      match outcome env "trigger_manual_import" (doc frm) [] with
      | Replied r =>
          match message r with
          | Some m =>
              if truthy (Status.success m) then import_succeeded (Status.message m)
              else import_failed (Status.message m)
          | None => import_failed (JStr "Import failed")
          end
      | Failed err => import_error err
      end
    else [ EvConfirm question ].
Proof.
  unfold trigger_manual_import. rewrite trace_confirm. cbn [run fst snd app].
  destruct (confirms env question); [| reflexivity].
  unfold trace. cbn [run fst snd app].
  destruct (outcome env _ _ _) as [r | err]; [| reflexivity].
  unfold callback. destruct (message r) as [m |]; [| reflexivity].
  by destruct (truthy (Status.success m)).
Qed.

(** C8. Once the operator confirms, the form is disabled right before the
    call of trigger_manual_import; whichever way the request ends (a reply
    that reports success, a reply that does not, a failed request), the first
    thing done is to enable the form again, and it stays enabled; and the
    document is reloaded exactly when the reply has a message whose success is
    set. *)
Theorem manual_import_form_state (frm : Form) (env : Env Status.t) :
  confirms env question = true ->
  exists completion,
    trace env (trigger_manual_import frm) =
      [ EvConfirm question;
        EvAlert (alert (__ "Starting import..." []) "blue");
        EvDisable;
        EvCall "trigger_manual_import" (doc frm) [] ] ++
      EvEnable :: completion /\
    (EvDisable ∉ completion) /\
    (forall before, form_enabled before (trace env (trigger_manual_import frm)) = true) /\
    (forall r m, outcome env "trigger_manual_import" (doc frm) [] = Replied r ->
       message r = Some m -> truthy (Status.success m) = true ->
       completion = import_succeeded (Status.message m)) /\
    (forall r m, outcome env "trigger_manual_import" (doc frm) [] = Replied r ->
       message r = Some m -> truthy (Status.success m) = false ->
       completion = import_failed (Status.message m)) /\
    (forall r, outcome env "trigger_manual_import" (doc frm) [] = Replied r ->
       message r = None -> completion = import_failed (JStr "Import failed")) /\
    (forall err, outcome env "trigger_manual_import" (doc frm) [] = Failed err ->
       completion = import_error err) /\
    (EvReload ∈ trace env (trigger_manual_import frm) <->
       exists r m, outcome env "trigger_manual_import" (doc frm) [] = Replied r /\
                   message r = Some m /\ truthy (Status.success m) = true).
Proof.
  intros C. rewrite manual_import_trace, C.
  eexists. split; [reflexivity |].
  destruct (outcome env _ _ _) as [r | err] eqn:O;
    [destruct (message r) as [m |] eqn:Hm;
       [destruct (truthy (Status.success m)) eqn:S |] |].
  - split; [intros Hin; no_member Hin |]. split; [reflexivity |].
    split; [by intros ? ? [= <-] [= <-]%(eq_trans (eq_sym Hm)) _ |].
    split; [intros ? ? [= <-] [= <-]%(eq_trans (eq_sym Hm)) S'; congruence |].
    split; [intros ? [= <-] N; congruence |]. split; [by intros ? [=] |].
    split; [intros _; by exists r, m | intros _; member].
  - split; [intros Hin; no_member Hin |]. split; [reflexivity |].
    split; [intros ? ? [= <-] [= <-]%(eq_trans (eq_sym Hm)) S'; congruence |].
    split; [by intros ? ? [= <-] [= <-]%(eq_trans (eq_sym Hm)) _ |].
    split; [intros ? [= <-] N; congruence |]. split; [by intros ? [=] |].
    split; [intros Hin; no_member Hin |].
    intros (? & ? & [= <-] & [= <-]%(eq_trans (eq_sym Hm)) & S'). congruence.
  - split; [intros Hin; no_member Hin |]. split; [reflexivity |].
    split; [intros ? ? [= <-] Hm'; congruence |].
    split; [intros ? ? [= <-] Hm'; congruence |].
    split; [by intros ? [= <-] _ |]. split; [by intros ? [=] |].
    split; [intros Hin; no_member Hin |].
    intros (? & ? & [= <-] & Hm' & _). congruence.
  - split; [intros Hin; no_member Hin |]. split; [reflexivity |].
    split; [by intros ? ? [=] |]. split; [by intros ? ? [=] |].
    split; [by intros ? [=] |]. split; [by intros ? [= <-] |].
    split; [intros Hin; no_member Hin |]. by intros (? & ? & [=] & _).
Qed.

End ManualImport.

(** ** The settings form: connection test *)

Section TestConnection.

Import XmlImportSettings XmlImportSettings.TestConnection.

Lemma connection_test_trace (frm : Form) (env : Env Status.t) :
  trace env (test_xml_connection frm) =
    if truthy (xml_feed_url (doc frm)) then
      [ EvAlert (alert (__ "Testing connection..." []) "blue");
        EvCall "test_connection" (doc frm) [] ] ++
      match outcome env "test_connection" (doc frm) [] with
      | Replied r => trace env (callback r)
      | Failed err => [ EvAlert (alert (__ "Connection test failed" []) "red") ]
      end
    else [ EvMsgprint (Msg.plain (__ "Please enter XML Feed URL first" [])) ].
Proof.
  unfold test_xml_connection. destruct (truthy (xml_feed_url (doc frm))); [| reflexivity].
  cbn [negb]. unfold trace at 1. cbn [run fst snd app].
  destruct (outcome env _ _ _); by rewrite !app_nil_r.
Qed.

(** C9, as the script has it.  With an empty URL the test only asks for the
    URL and calls nothing.  Otherwise test_connection is called; a reply leads
    to the success dialog exactly when it has a message whose success is set,
    and to the failure dialog otherwise, with the text of the message, or the
    words Connection test failed when the reply has none.  A request that
    fails, and so has no reply, leads to the red alert alone: no dialog is
    shown. *)
Theorem connection_test_dialogs (frm : Form) (env : Env Status.t) :
  (truthy (xml_feed_url (doc frm)) = false ->
     trace env (test_xml_connection frm) =
       [ EvMsgprint (Msg.plain (__ "Please enter XML Feed URL first" [])) ] /\
     methods_called (trace env (test_xml_connection frm)) = []) /\
  (truthy (xml_feed_url (doc frm)) = true ->
     exists completion,
       trace env (test_xml_connection frm) =
         [ EvAlert (alert (__ "Testing connection..." []) "blue");
           EvCall "test_connection" (doc frm) [] ] ++ completion /\
       (forall r, outcome env "test_connection" (doc frm) [] = Replied r ->
          ((exists text, success_dialog text ∈ completion) <->
             (exists m, message r = Some m /\ truthy (Status.success m) = true)) /\
          (forall m, message r = Some m -> truthy (Status.success m) = true ->
             completion = [ EvAlert (alert (Raw (Status.message m)) "green");
                            success_dialog (Status.message m) ]) /\
          (forall m, message r = Some m -> truthy (Status.success m) = false ->
             completion = [ EvAlert (alert (Raw (Status.message m)) "red");
                            failure_dialog (Status.message m) ]) /\
          (message r = None ->
             completion = [ EvAlert (alert (Raw (JStr "Connection test failed")) "red");
                            failure_dialog (JStr "Connection test failed") ])) /\
       (forall err, outcome env "test_connection" (doc frm) [] = Failed err ->
          completion = [ EvAlert (alert (__ "Connection test failed" []) "red") ])).
Proof.
  rewrite connection_test_trace. split; intros U; rewrite U; [by split |].
  eexists. split; [reflexivity |].
  destruct (outcome env _ _ _) as [r | err];
    (split; [intros ? [= <-] | intros ? [= <-]; reflexivity]).
  unfold callback, failed, success_dialog, failure_dialog.
  destruct (message r) as [m |] eqn:Hm;
    [destruct (truthy (Status.success m)) eqn:S |].
  - split; [split |].
    + intros _. by exists m.
    + intros _. eexists. member.
    + split; [by intros ? [= <-] _ |]. split; [| by intros [=]].
      intros ? [= <-] S'. congruence.
  - split; [split |].
    + intros [text Hin]. exfalso. no_member Hin.
    + intros (? & [= <-] & S'). congruence.
    + split; [| split; [by intros ? [= <-] _ | by intros [=]]].
      intros ? [= <-] S'. congruence.
  - split; [split |].
    + intros [text Hin]. exfalso. no_member Hin.
    + by intros (? & [=] & _).
    + split; [by intros ? [=] |]. split; [by intros ? [=] | by intros _].
Qed.

End TestConnection.

(** ** The buttons of the configuration form *)

Section Buttons.

Context `{JsRuntime}.

Lemma has_button_nil (text : string) : has_button text [] <-> False.
Proof. split; [| done]. by intros (b & Hb%elem_of_nil & _). Qed.

Lemma has_button_cons (text : string) (b : Button) (rest : list Button) :
  has_button text (b :: rest) <-> label b = __ text [] \/ has_button text rest.
Proof.
  split.
  - intros (b' & [-> | Hb]%elem_of_cons & L); [by left | right; by exists b'].
  - intros [L | (b' & Hb & L)].
    + exists b. split; [apply list_elem_of_here | exact L].
    + exists b'. split; [by apply list_elem_of_further | exact L].
Qed.

(** C10. In both versions of the configuration form, the manual import button
    is there exactly when the document is saved, has a feed URL and is
    enabled; the stream length, feed debug and aggressive check buttons exactly
    when it is saved and has a feed URL; the pasted XML button exactly when it
    is saved; and there is no other button. *)
Theorem configuration_buttons (frm : Form) :
  (has_button "▶️ Trigger Manual Import" (XmlImportConfiguration.refresh frm) <->
     is_new frm = false /\ truthy (xml_feed_url (doc frm)) = true /\
     truthy (enabled (doc frm)) = true) /\
  (has_button "🔍 Check Stream Length" (XmlImportConfiguration.refresh frm) <->
     is_new frm = false /\ truthy (xml_feed_url (doc frm)) = true) /\
  (has_button "🐛 Debug XML Feed" (XmlImportConfiguration.refresh frm) <->
     is_new frm = false /\ truthy (xml_feed_url (doc frm)) = true) /\
  (has_button "🎯 Aggressive Import Check" (XmlImportConfiguration.refresh frm) <->
     is_new frm = false /\ truthy (xml_feed_url (doc frm)) = true) /\
  (has_button "📋 Debug Import from Pasted XML" (XmlImportConfiguration.refresh frm) <->
     is_new frm = false) /\
  (forall b, b ∈ XmlImportConfiguration.refresh frm ->
     label b ∈ [ __ "▶️ Trigger Manual Import" []; __ "🔍 Check Stream Length" [];
                 __ "🐛 Debug XML Feed" []; __ "🎯 Aggressive Import Check" [];
                 __ "📋 Debug Import from Pasted XML" [] ]) /\
  (has_button "Trigger Manual Import" (XmlImportConfigurationShort.refresh frm) <->
     is_new frm = false /\ truthy (xml_feed_url (doc frm)) = true /\
     truthy (enabled (doc frm)) = true) /\
  (forall b, b ∈ XmlImportConfigurationShort.refresh frm ->
     label b = __ "Trigger Manual Import" []).
Proof.
  unfold XmlImportConfiguration.refresh, XmlImportConfigurationShort.refresh.
  destruct (truthy (enabled (doc frm))), (truthy (xml_feed_url (doc frm))), (is_new frm);
    cbn [andb negb app];
    rewrite ?has_button_cons, ?has_button_nil; cbn [label].
  all: repeat match goal with |- _ /\ _ => split end.
  all: try (intros b Hb; each_entry Hb; subst b; cbn [label]; by member).
  all: split; [intros Hb; repeat (destruct Hb as [Hb | Hb]; try discriminate Hb);
                try contradiction
              | intros Hc; try (by destruct Hc as (? & ? & ?)); try (by destruct Hc);
                try discriminate Hc]; auto 10.
Qed.

End Buttons.

(** ** The methods the scripts dispatch *)

Section Dispatch.

Context `{JsRuntime}.

Abbreviation offered := (fun m : string => m ∈ server_methods).

Lemma configuration_handlers (shown frm : Form) (b : Button) :
  b ∈ XmlImportConfiguration.refresh shown -> only_calls offered (on_click b frm).
Proof.
  intros Hb. unfold XmlImportConfiguration.refresh in Hb.
  each_entry Hb; subst b; cbn [on_click].
  - unfold XmlImportConfiguration.TriggerManualImport.on_click,
      XmlImportConfiguration.TriggerManualImport.callback. audit.
  - unfold XmlImportConfiguration.CheckStreamLength.on_click,
      XmlImportConfiguration.CheckStreamLength.callback. audit.
  - unfold XmlImportConfiguration.DebugXmlFeed.on_click,
      XmlImportConfiguration.DebugXmlFeed.callback. audit.
  - unfold XmlImportConfiguration.AggressiveImportCheck.on_click,
      XmlImportConfiguration.AggressiveImportCheck.callback. audit.
  - unfold XmlImportConfiguration.ImportFromPastedContent.on_click,
      XmlImportConfiguration.ImportFromPastedContent.primary_action,
      XmlImportConfiguration.ImportFromPastedContent.callback. audit.
Qed.

Lemma short_configuration_handlers (shown frm : Form) (b : Button) :
  b ∈ XmlImportConfigurationShort.refresh shown -> only_calls offered (on_click b frm).
Proof.
  intros Hb. unfold XmlImportConfigurationShort.refresh in Hb.
  each_entry Hb; subst b; cbn [on_click].
  unfold XmlImportConfigurationShort.on_click, XmlImportConfigurationShort.callback.
  audit.
Qed.

Lemma settings_handlers (shown frm : Form) (b : Button) :
  b ∈ XmlImportSettings.refresh shown -> only_calls offered (on_click b frm).
Proof.
  intros Hb. unfold XmlImportSettings.refresh in Hb.
  each_entry Hb; subst b; cbn [on_click].
  - unfold XmlImportSettings.TestConnection.test_xml_connection,
      XmlImportSettings.TestConnection.callback, XmlImportSettings.TestConnection.error,
      XmlImportSettings.TestConnection.failed. audit.
  - unfold XmlImportSettings.ManualImport.trigger_manual_import,
      XmlImportSettings.ManualImport.callback, XmlImportSettings.ManualImport.error. audit.
  - unfold XmlImportSettings.view_import_logs. audit.
Qed.

Lemma dispatched_is_offered (s : Script) (m : string) :
  s ∈ scripts -> dispatches s m -> m ∈ server_methods.
Proof.
  intros Hs [a Hm]. unfold scripts in Hs.
  destruct a as [shown b added frm env | field handler handled frm env];
    cbn [events] in Hm.
  - apply (only_calls_sound offered env (on_click b frm)); [| exact Hm].
    each_entry Hs; subst s.
    + exact (configuration_handlers shown frm b added).
    + exact (short_configuration_handlers shown frm b added).
    + exact (settings_handlers shown frm b added).
  - apply (only_calls_sound offered env (handler frm)); [| exact Hm].
    each_entry Hs; subst s; simpl in handled; each_entry handled.
    all: injection handled as _ ->; unfold XmlImportSettings.field_changed; audit.
Qed.

Lemma click_dispatches (s : Script) (shown frm : Form) (i : nat) (b : Button)
    (env : Env (payload b)) (m : string) :
  refresh s shown !! i = Some b ->
  m ∈ methods_called (trace env (on_click b frm)) ->
  dispatches s m.
Proof.
  intros Hb Hm. apply list_elem_of_lookup_2 in Hb.
  by exists (Click s shown b Hb frm env).
Qed.

Lemma offered_is_dispatched (m : string) :
  m ∈ server_methods -> exists s, s ∈ scripts /\ dispatches s m.
Proof.
  unfold server_methods. rewrite !elem_of_union, !elem_of_singleton.
  intros [[[[[-> | ->] | ->] | ->] | ->] | ->].
  - exists XmlImportConfiguration.script. split; [unfold scripts; member |].
    by refine (click_dispatches XmlImportConfiguration.script saved_form saved_form 0 _
                 (agreeing (Failed lost)) _ eq_refl _); cbn; member.
  - exists XmlImportConfiguration.script. split; [unfold scripts; member |].
    by refine (click_dispatches XmlImportConfiguration.script saved_form saved_form 1 _
                 (agreeing (Failed lost)) _ eq_refl _); cbn; member.
  - exists XmlImportConfiguration.script. split; [unfold scripts; member |].
    by refine (click_dispatches XmlImportConfiguration.script saved_form saved_form 2 _
                 (agreeing (Failed lost)) _ eq_refl _); cbn; member.
  - exists XmlImportConfiguration.script. split; [unfold scripts; member |].
    by refine (click_dispatches XmlImportConfiguration.script saved_form saved_form 3 _
                 (agreeing (Failed lost)) _ eq_refl _); cbn; member.
  - exists XmlImportConfiguration.script. split; [unfold scripts; member |].
    by refine (click_dispatches XmlImportConfiguration.script saved_form saved_form 4 _
                 (agreeing (Failed lost)) _ eq_refl _); cbn; member.
  - exists XmlImportSettings.script. split; [unfold scripts; member |].
    by refine (click_dispatches XmlImportSettings.script saved_form saved_form 0 _
                 (agreeing (Failed lost)) _ eq_refl _); cbn; member.
Qed.

(** C5. The methods the three scripts dispatch are the six server methods
    and no other. *)
Theorem dispatched_methods (m : string) :
  (exists s, s ∈ scripts /\ dispatches s m) <->
  m ∈ ({[ "trigger_manual_import"; "check_stream_length"; "debug_xml_feed";
          "aggressive_import_check"; "import_from_pasted_content";
          "test_connection" ]} : gset string).
Proof.
  split.
  - intros (s & Hs & Hm). by eapply dispatched_is_offered.
  - apply offered_is_dispatched.
Qed.

End Dispatch.

(** ** Closed instances *)

Section Instances.

#[local] Existing Instance example_runtime.

(** The second of two attempts found three orders and triggered the import:
    the box shown says so in the last cell of its row. *)
Lemma attempt_status_precedence_witness :
  exists markup,
    EvMsgprint {| Msg.title := Some (__ "Aggressive Import Check Results" []);
                  Msg.message := Raw (JStr markup);
                  Msg.indicator := None;
                  Msg.wide := true |}
      ∈ trace (agreeing (Failed lost))
              (XmlImportConfiguration.AggressiveImportCheck.callback saved_form
                 (carrying two_attempts)) /\
    contains ("<td>🎉 3 orders found! Import triggered!</td>" +:+ nl 11 +:+ "</tr>") markup.
Proof.
  assert (Ha : lucky_attempt ∈
                 XmlImportConfiguration.AggressiveImportCheck.results two_attempts)
    by member.
  destruct (attempt_status_precedence saved_form (carrying two_attempts) two_attempts
              (agreeing (Failed lost)) lucky_attempt eq_refl eq_refl Ha)
    as (markup & text & Hshown & _ & Hrow & _ & Hfound & _).
  destruct (Hfound eq_refl eq_refl) as (Htext & _).
  exists markup. split; [exact Hshown |].
  refine (contains_trans _ _ _ _ Hrow). rewrite Htext.
  do 18 apply contains_right. apply contains_refl.
Defined.

(** An order count that is a text holding the words: the status holds them
    though no import was triggered. *)
Lemma echoed_count_reads_triggered :
  ~ (truthy (XmlImportConfiguration.AggressiveImportCheck.error echo_attempt) = false ->
     truthy (XmlImportConfiguration.AggressiveImportCheck.has_orders echo_attempt) = true ->
     (contains "Import triggered!"
        (XmlImportConfiguration.AggressiveImportCheck.status echo_attempt) <->
      truthy (XmlImportConfiguration.AggressiveImportCheck.import_triggered echo_attempt)
        = true)).
Proof.
  intros C. destruct (C eq_refl eq_refl) as [Hset _].
  assert (Hwords : contains "Import triggered!"
                     (XmlImportConfiguration.AggressiveImportCheck.status echo_attempt))
    by (by exists "🎉 ", " orders found!").
  specialize (Hset Hwords). discriminate Hset.
Qed.

(** What the status of that attempt reads. *)
Example echo_attempt_status :
  XmlImportConfiguration.AggressiveImportCheck.status echo_attempt =
    "🎉 Import triggered! orders found!".
Proof. reflexivity. Qed.

(** The first attempt, with 38 bytes and no orders, reads No Data. *)
Example quiet_attempt_status :
  XmlImportConfiguration.AggressiveImportCheck.status quiet_attempt = "No Data".
Proof. reflexivity. Qed.

(** A confirmed manual import that the server reports as done. *)
Lemma manual_import_form_state_witness :
  confirms (agreeing (Replied imported)) XmlImportSettings.ManualImport.question = true /\
  EvReload ∈ trace (agreeing (Replied imported))
                   (XmlImportSettings.ManualImport.trigger_manual_import saved_form) /\
  form_enabled false
    (trace (agreeing (Replied imported))
           (XmlImportSettings.ManualImport.trigger_manual_import saved_form)) = true.
Proof.
  destruct (manual_import_form_state saved_form (agreeing (Replied imported)) eq_refl)
    as (completion & _ & _ & Henabled & _ & _ & _ & _ & Hreload).
  split; [reflexivity |]. split; [| apply Henabled].
  apply Hreload. eexists _, _. split; [reflexivity |]. split; reflexivity.
Defined.

(** The same import when the request is lost: the form is enabled again and
    the document is not reloaded. *)
Example manual_import_lost :
  trace (agreeing (Failed lost))
        (XmlImportSettings.ManualImport.trigger_manual_import saved_form) =
    [ EvConfirm XmlImportSettings.ManualImport.question;
      EvAlert (XmlImportSettings.alert (__ "Starting import..." []) "blue");
      EvDisable;
      EvCall "trigger_manual_import" saved_doc [];
      EvEnable;
      EvAlert (XmlImportSettings.alert (__ "Import failed" []) "red");
      EvMsgprint (XmlImportSettings.box "Import Error" (JStr "Network error") "red") ].
Proof. reflexivity. Qed.


(** What the report of that fetch holds. *)
Example failed_fetch_report :
  XmlImportConfiguration.DebugXmlFeed.pieces failed_fetch =
    [ nl 8; "<h4>XML Feed Debug Information</h4>";
      nl 8; XmlImportConfiguration.table_open;
      nl 9; tr "URL:" None "https://feed.example/orders.xml";
      nl 7;
      tr "Error:" (Some "text-danger") "HTTP 503 Service Unavailable";
      "</table>" ].
Proof. reflexivity. Qed.

(** An operator who declines the aggressive check: the question and nothing
    else. *)
Example aggressive_check_declined :
  trace (declining (Failed lost))
        (XmlImportConfiguration.AggressiveImportCheck.on_click saved_form) =
    [ EvConfirm XmlImportConfiguration.AggressiveImportCheck.question ].
Proof. reflexivity. Qed.





(** Declining the question of the aggressive check calls nothing. *)
Lemma aggressive_check_needs_confirmation_witness :
  methods_called
    (trace (declining (Failed lost))
           (XmlImportConfiguration.AggressiveImportCheck.on_click saved_form)) = [].
Proof.
  destruct (aggressive_check_needs_confirmation saved_form (declining (Failed lost)))
    as (_ & Hdeclined & _).
  destruct (Hdeclined eq_refl) as (_ & Hquiet). exact Hquiet.
Defined.

(** Testing the connection of [blank_form] asks for the URL. *)
Lemma connection_test_dialogs_witness :
  trace (agreeing (Failed lost))
        (XmlImportSettings.TestConnection.test_xml_connection blank_form) =
    [ EvMsgprint (Msg.plain (__ "Please enter XML Feed URL first" [])) ].
Proof.
  destruct (connection_test_dialogs blank_form (agreeing (Failed lost))) as (Hblank & _).
  destruct (Hblank eq_refl) as (Hasked & _). exact Hasked.
Defined.

(** C9 as the claim has it fails for a request that is lost: the call was
    made, and neither dialog is shown. *)
Lemma lost_test_shows_no_dialog :
  ~ ("test_connection"
       ∈ methods_called
           (trace (agreeing (Failed lost))
                  (XmlImportSettings.TestConnection.test_xml_connection saved_form)) ->
     (exists text,
        success_dialog text
          ∈ trace (agreeing (Failed lost))
                  (XmlImportSettings.TestConnection.test_xml_connection saved_form)) \/
     (exists text,
        failure_dialog text
          ∈ trace (agreeing (Failed lost))
                  (XmlImportSettings.TestConnection.test_xml_connection saved_form))).
Proof.
  intros C.
  assert (Hcall : "test_connection"
                    ∈ methods_called
                        (trace (agreeing (Failed lost))
                               (XmlImportSettings.TestConnection.test_xml_connection
                                  saved_form)))
    by (cbn; member).
  destruct (C Hcall) as [[text Hin] | [text Hin]]; cbn in Hin;
    unfold success_dialog, failure_dialog in Hin; no_member Hin.
Qed.

(** [saved_form] has the stream length button, [blank_form] the one for
    pasted XML. *)
Lemma configuration_buttons_witness :
  has_button "🔍 Check Stream Length" (XmlImportConfiguration.refresh saved_form) /\
  has_button "📋 Debug Import from Pasted XML" (XmlImportConfiguration.refresh blank_form).
Proof.
  split.
  - destruct (configuration_buttons saved_form) as (_ & (_ & Hcheck) & _).
    apply Hcheck. split; reflexivity.
  - destruct (configuration_buttons blank_form) as (_ & _ & _ & _ & (_ & Hpaste) & _).
    by apply Hpaste.
Defined.

(** The settings form dispatches test_connection. *)
Lemma dispatched_methods_witness :
  exists s, s ∈ scripts /\ dispatches s "test_connection".
Proof.
  apply (dispatched_methods "test_connection").
  rewrite !elem_of_union, !elem_of_singleton. by right.
Defined.

End Instances.

(** * Further properties of the scripts *)

(** ** What a handler can emit *)

Section Emitted.

Context {M : Type}.
Implicit Types (env : Env M) (p k : Prog M) (t : list Event).

Lemma trace_run env p : trace env p = (run env p).1 ++ (run env p).2.
Proof. reflexivity. Qed.

Lemma Forall_inserted (P : Event -> Prop) (first_ later last_ : list Event) :
  Forall P (first_ ++ last_) -> Forall P later -> Forall P (first_ ++ later ++ last_).
Proof.
  rewrite !Forall_app. intros [? ?] ?. by repeat split.
Qed.

(** Every event of a trace comes from a call of the handler or of one of its
    callbacks: by induction on the handler. *)
Lemma emits_only_sound (P : Event -> Prop) env p :
  emits_only P p -> Forall P (trace env p).
Proof.
  induction 1 as [ | | ? k ? _ IH | ? k ? _ IH | ? k ? _ IH | ? k ? _ IH | k ? _ IH
                 | k ? _ IH | k ? _ IH | k ? _ IH | text on_yes k ? _ IHy _ IH
                 | method d args callback error k ? _ IHc _ IHe _ IH
                 | d primary_action k ? _ IHp _ IH | k ? _ IH ];
    try (by constructor).
  - rewrite trace_confirm. constructor; [done |].
    apply Forall_inserted; [exact IH |]. by destruct (confirms env text).
  - rewrite trace_call. constructor; [done |].
    apply Forall_inserted; [exact IH |].
    destruct (outcome env method d args); [apply IHc | apply IHe].
  - rewrite trace_dialog_show. constructor; [done |].
    apply Forall_inserted; [exact IH |].
    destruct (presses env d); [apply IHp | constructor].
Qed.

Lemma no_call_methods t : Forall no_call t -> methods_called t = [].
Proof.
  induction 1 as [| e t He _ IH]; [reflexivity |].
  destruct e; try exact IH. destruct He.
Qed.

Lemma quiet_calls_nothing env p :
  emits_only no_call p -> methods_called (trace env p) = [].
Proof. intros Hp. by apply no_call_methods, emits_only_sound. Qed.

Lemma quiet_parts env k :
  emits_only no_call k ->
  methods_called (run env k).1 = [] /\ methods_called (run env k).2 = [].
Proof.
  intros Hk. apply (quiet_calls_nothing env) in Hk.
  rewrite trace_run, methods_called_app in Hk. by apply app_eq_nil in Hk.
Qed.

(** A handler of the shape [calls_once] calls at most once. *)
Lemma calls_once_sound env p :
  calls_once p -> length (methods_called (trace env p)) <= 1.
Proof.
  induction 1 as [ p Hq | ? k _ IH | ? k _ IH | ? k _ IH | ? k _ IH | k _ IH | k _ IH
                 | k _ IH | k _ IH | k _ IH | text on_yes k _ IHy Hk
                 | method d args callback error k Hc He Hk
                 | d primary_action k _ IHp Hk ];
    try exact IH.
  - rewrite (quiet_calls_nothing env p Hq). simpl. lia.
  - rewrite trace_confirm. destruct (quiet_parts env k Hk) as [E1 E2].
    cbn [methods_called omap list_omap]. fold methods_called.
    rewrite !methods_called_app, E1, E2, app_nil_r. cbn [app].
    destruct (confirms env text); [exact IHy | simpl; lia].
  - rewrite trace_call. destruct (quiet_parts env k Hk) as [E1 E2].
    cbn [methods_called omap list_omap]. fold methods_called.
    rewrite !methods_called_app, E1, E2, app_nil_r. cbn [app length].
    destruct (outcome env method d args) as [r | err];
      [rewrite (quiet_calls_nothing env _ (Hc r)) | rewrite (quiet_calls_nothing env _ (He err))];
      simpl; lia.
  - rewrite trace_dialog_show. destruct (quiet_parts env k Hk) as [E1 E2].
    cbn [methods_called omap list_omap]. fold methods_called.
    rewrite !methods_called_app, E1, E2, app_nil_r. cbn [app].
    destruct (presses env d); [apply IHp | simpl; lia].
Qed.

End Emitted.

(** ** Reloads and calls *)

Section Reloads.

Lemma reloads_follow_called (t : list Event) : reloads_follow true t = true.
Proof. induction t as [| e t IH]; [reflexivity |]. by destruct e. Qed.

Lemma reloads_follow_mono (b : bool) (t : list Event) :
  reloads_follow false t = true -> reloads_follow b t = true.
Proof.
  destruct b; [intros _; apply reloads_follow_called | done].
Qed.

Lemma reloads_follow_plain (b : bool) (t : list Event) :
  Forall (fun e => e <> EvReload) t -> reloads_follow b t = true.
Proof.
  intros Ht. revert b. induction Ht as [| e t He _ IH]; intros b; [reflexivity |].
  destruct e; simpl; try apply IH. done.
Qed.

Lemma reloads_follow_app (b : bool) (t1 t2 : list Event) :
  reloads_follow b t1 = true -> reloads_follow false t2 = true ->
  reloads_follow b (t1 ++ t2) = true.
Proof.
  revert b. induction t1 as [| e t1 IH]; intros b H1 H2.
  - by apply reloads_follow_mono.
  - destruct e; simpl in *; try by apply IH.
    apply andb_true_iff in H1 as [-> H1]. by rewrite IH.
Qed.

Lemma reloads_follow_inserted (b : bool) (first_ later last_ : list Event) :
  reloads_follow b (first_ ++ last_) = true -> reloads_follow false later = true ->
  reloads_follow b (first_ ++ later ++ last_) = true.
Proof.
  revert b. induction first_ as [| e first_ IH]; intros b H1 H2.
  - simpl in *. revert b H1. induction later as [| e later IH]; intros b H1; [done |].
    destruct e; simpl in *; try by apply IH.
    + discriminate H2.
    + apply reloads_follow_called.
  - destruct e; simpl in *; try by apply IH.
    apply andb_true_iff in H1 as [-> H1]. by rewrite IH.
Qed.

(** What [reloads_follow] decides. *)
Lemma reloads_follow_spec (t pre post : list Event) :
  reloads_follow false t = true -> t = pre ++ EvReload :: post ->
  exists method d args, EvCall method d args ∈ pre.
Proof.
  intros Ht ->. revert Ht. induction pre as [| e pre IH]; [done |].
  destruct e; cbn [app reloads_follow andb];
    try (intros Ht; destruct (IH Ht) as (m' & d' & a' & Hin);
         exists m', d', a'; by apply list_elem_of_further).
  - discriminate.
  - intros _. eexists _, _, _. apply list_elem_of_here.
Qed.

Lemma reloads_in_callbacks_sound {M : Type} (env : Env M) (p : Prog M) :
  reloads_in_callbacks p -> reloads_follow false (trace env p) = true.
Proof.
  induction 1 as [ p Hp | ? k _ IH | ? k _ IH | ? k _ IH | ? k _ IH | k _ IH | k _ IH
                 | k _ IH | k _ IH | text on_yes k _ IHy _ IH
                 | method d args callback error k
                 | d primary_action k _ IHp _ IH ];
    try exact IH.
  - by apply reloads_follow_plain, emits_only_sound.
  - rewrite trace_confirm. cbn [reloads_follow].
    apply reloads_follow_inserted; [exact IH |]. by destruct (confirms env text).
  - rewrite trace_call. cbn [reloads_follow]. apply reloads_follow_called.
  - rewrite trace_dialog_show. cbn [reloads_follow].
    apply reloads_follow_inserted; [exact IH |].
    destruct (presses env d); [apply IHp | reflexivity].
Qed.

End Reloads.

(** ** Counting pieces *)

Section Occurrences.

Lemma occurrences_app (x : string) (a b : list string) :
  occurrences x (a ++ b) = occurrences x a + occurrences x b.
Proof. unfold occurrences. by rewrite filter_app, length_app. Qed.

Lemma occurrences_absent (x : string) (l : list string) : x ∉ l -> occurrences x l = 0.
Proof.
  unfold occurrences. induction l as [| p l IH]; [reflexivity |].
  intros Hx. rewrite filter_cons. case_decide as Hp.
  - subst p. destruct Hx. apply list_elem_of_here.
  - apply IH. intros Hin. apply Hx. by apply list_elem_of_further.
Qed.

Lemma occurrences_lines {A : Type} (f : A -> string) (x : string) (l : list A) :
  (forall a, x <> f a) -> occurrences x (f <$> l) = 0.
Proof.
  intros Hf. apply occurrences_absent. by intros (a & ? & _)%list_elem_of_fmap; eapply Hf.
Qed.

End Occurrences.

(** The closed runs of pieces counted, the lines of the lists left out. *)
Ltac tally :=
  rewrite ?occurrences_app;
  repeat match goal with
  | |- context [occurrences ?x (?f <$> ?l)] =>
      rewrite (occurrences_lines f x l) by (intros ? E; differ E)
  end;
  reflexivity.


(** ** The configuration form: manual import *)

Section ConfigurationImport.

Import XmlImportConfiguration.

Lemma configuration_import_trace (frm : Form) (env : Env JsVal) :
  trace env (TriggerManualImport.on_click frm) =
    EvConfirm (import_question frm) ::
    (if confirms env (import_question frm) then
       EvCall "trigger_manual_import" (doc frm) [] ::
       match outcome env "trigger_manual_import" (doc frm) [] with
       | Replied r => if truthy (exc r) then [] else [ import_notice; EvReload ]
       | Failed err => []
       end
     else []).
Proof.
  unfold TriggerManualImport.on_click. rewrite trace_confirm, trace_call.
  cbn [run fst snd app]. fold (import_question frm).
  destruct (confirms env (import_question frm)); [| reflexivity].
  destruct (outcome env _ _ _) as [r | err]; [| reflexivity].
  unfold TriggerManualImport.callback. by destruct (truthy (exc r)).
Qed.

(** X1. The manual import of the configuration form, which both versions of
    the script run alike: the question comes first and, declined, is all
    that happens; confirmed, the call of trigger_manual_import follows it.
    The notice and the reload of the document come exactly when the server
    replied without an exception, whatever the reply holds; after a request
    that failed, or raised, the script shows nothing of its own. *)
Theorem configuration_manual_import (frm : Form) (env : Env JsVal) :
  trace env (XmlImportConfigurationShort.on_click frm) =
    trace env (TriggerManualImport.on_click frm) /\
  starts [ EvConfirm (import_question frm) ] (trace env (TriggerManualImport.on_click frm)) /\
  (confirms env (import_question frm) = false ->
     trace env (TriggerManualImport.on_click frm) = [ EvConfirm (import_question frm) ]) /\
  (confirms env (import_question frm) = true ->
     starts [ EvConfirm (import_question frm); EvCall "trigger_manual_import" (doc frm) [] ]
            (trace env (TriggerManualImport.on_click frm)) /\
     (clean (outcome env "trigger_manual_import" (doc frm) []) ->
        trace env (TriggerManualImport.on_click frm) =
          [ EvConfirm (import_question frm); EvCall "trigger_manual_import" (doc frm) [];
            import_notice; EvReload ]) /\
     (~ clean (outcome env "trigger_manual_import" (doc frm) []) ->
        trace env (TriggerManualImport.on_click frm) =
          [ EvConfirm (import_question frm);
            EvCall "trigger_manual_import" (doc frm) [] ])).
Proof.
  split; [reflexivity |]. rewrite configuration_import_trace.
  split; [by eexists |]. split; [by intros -> |]. intros ->.
  split; [by eexists |].
  destruct (outcome env _ _ _) as [r | err]; cbn [clean].
  - destruct (truthy (exc r)); split; done.
  - split; [by intros [] | done].
Qed.

End ConfigurationImport.

(** ** The reports of the configuration form *)

Section Reports.

Context `{JsRuntime}.
Import XmlImportConfiguration.

Lemma stream_check_trace (frm : Form) (env : Env CheckStreamLength.Result) :
  trace env (CheckStreamLength.on_click frm) =
    EvCall "check_stream_length" (doc frm) [] ::
    match outcome env "check_stream_length" (doc frm) [] with
    | Replied r => trace env (CheckStreamLength.callback frm r)
    | Failed err => []
    end.
Proof.
  unfold CheckStreamLength.on_click. rewrite trace_call. cbn [run fst snd app].
  destruct (outcome env _ _ _); by rewrite !app_nil_r.
Qed.

Lemma feed_debug_trace (frm : Form) (env : Env DebugXmlFeed.Result) :
  trace env (DebugXmlFeed.on_click frm) =
    EvCall "debug_xml_feed" (doc frm) [] ::
    match outcome env "debug_xml_feed" (doc frm) [] with
    | Replied r => trace env (DebugXmlFeed.callback frm r)
    | Failed err => []
    end.
Proof.
  unfold DebugXmlFeed.on_click. rewrite trace_call. cbn [run fst snd app].
  destruct (outcome env _ _ _); by rewrite !app_nil_r.
Qed.

Lemma pasted_import_trace (frm : Form) (env : Env ImportFromPastedContent.Result) :
  trace env (ImportFromPastedContent.on_click frm) =
    EvDialogShow ImportFromPastedContent.dialog ::
    match presses env ImportFromPastedContent.dialog with
    | None => []
    | Some None => [ EvThrow "TypeError" ]
    | Some (Some values) =>
        if truthy (Dialog.xml_content values) then
          let args := [ ("xml_content", Dialog.xml_content values) ] in
          EvCall "import_from_pasted_content" (doc frm) args ::
          EvDialogHide ::
          match outcome env "import_from_pasted_content" (doc frm) args with
          | Replied r => trace env (ImportFromPastedContent.callback frm r)
          | Failed err => []
          end
        else []
    end.
Proof.
  unfold ImportFromPastedContent.on_click. rewrite trace_dialog_show.
  cbn [run fst snd app].
  destruct (presses env _) as [[values |] |]; [| reflexivity | reflexivity].
  rewrite app_nil_r. unfold ImportFromPastedContent.primary_action.
  destruct (truthy (Dialog.xml_content values)); [| reflexivity].
  rewrite trace_call. cbn [run fst snd app].
  destruct (outcome env _ _ _); by rewrite !app_nil_r.
Qed.

End Reports.

Section SilentFailures.

Context `{JsRuntime}.
Import XmlImportConfiguration.

Lemma unusable_reply {M : Type} (r : Response M) :
  unusable (Replied r) <-> negb (truthy (exc r)) = false \/ message r = None.
Proof.
  cbn [unusable]. destruct (truthy (exc r)); cbn [negb]; split; intros [? | ?]; auto; discriminate.
Qed.

(** X2. The four reports of the configuration form have no error callback
    and show a reply only when it has no exception and a message: when the
    request fails, raises, or brings no message, the script does nothing
    after the call, and in no other case. *)
Theorem reports_fail_silently (frm : Form) :
  (forall env : Env CheckStreamLength.Result,
     unusable (outcome env "check_stream_length" (doc frm) []) <->
     trace env (CheckStreamLength.on_click frm) =
       [ EvCall "check_stream_length" (doc frm) [] ]) /\
  (forall env : Env DebugXmlFeed.Result,
     unusable (outcome env "debug_xml_feed" (doc frm) []) <->
     trace env (DebugXmlFeed.on_click frm) = [ EvCall "debug_xml_feed" (doc frm) [] ]) /\
  (forall env : Env AggressiveImportCheck.Result,
     confirms env AggressiveImportCheck.question = true ->
     unusable (outcome env "aggressive_import_check" (doc frm) []) <->
     trace env (AggressiveImportCheck.on_click frm) =
       [ EvConfirm AggressiveImportCheck.question;
         EvCall "aggressive_import_check" (doc frm) [] ]) /\
  (forall (env : Env ImportFromPastedContent.Result) (values : Dialog.Values),
     presses env ImportFromPastedContent.dialog = Some (Some values) ->
     truthy (Dialog.xml_content values) = true ->
     unusable (outcome env "import_from_pasted_content" (doc frm)
                 [ ("xml_content", Dialog.xml_content values) ]) <->
     trace env (ImportFromPastedContent.on_click frm) =
       [ EvDialogShow ImportFromPastedContent.dialog;
         EvCall "import_from_pasted_content" (doc frm)
                [ ("xml_content", Dialog.xml_content values) ];
         EvDialogHide ]).
Proof.
  split; [| split; [| split]].
  - intros env. rewrite stream_check_trace.
    destruct (outcome env _ _ _) as [r | err]; [| done].
    destruct (truthy (exc r)) eqn:E, (message r) as [result |] eqn:M;
      try (rewrite (stream_analysis_shown frm r result env E M));
      rewrite unusable_reply, E, M; unfold CheckStreamLength.callback;
      rewrite ?E, ?M; cbn [negb]; split; try done; try (by right); try (by left).
    by intros [? | ?].
  - intros env. rewrite feed_debug_trace.
    destruct (outcome env _ _ _) as [r | err]; [| done].
    destruct (truthy (exc r)) eqn:E, (message r) as [result |] eqn:M;
      try (rewrite (feed_debug_shown frm r result env E M));
      rewrite unusable_reply, E, M; unfold DebugXmlFeed.callback;
      rewrite ?E, ?M; cbn [negb]; split; try done; try (by right); try (by left).
    by intros [? | ?].
  - intros env Hyes. rewrite aggressive_check_trace, Hyes.
    destruct (outcome env _ _ _) as [r | err]; [| done].
    destruct (truthy (exc r)) eqn:E, (message r) as [result |] eqn:M;
      try (rewrite (aggressive_check_shown frm r result env E M));
      rewrite unusable_reply, E, M; unfold AggressiveImportCheck.callback;
      rewrite ?E, ?M; cbn [negb]; split; try done; try (by right); try (by left).
    by intros [? | ?].
  - intros env values Hpress Hfilled. rewrite pasted_import_trace, Hpress, Hfilled.
    cbv zeta.
    destruct (outcome env _ _ _) as [r | err]; [| done].
    destruct (truthy (exc r)) eqn:E, (message r) as [result |] eqn:M;
      try (rewrite (pasted_import_shown frm r result env E M));
      rewrite unusable_reply, E, M; unfold ImportFromPastedContent.callback;
      rewrite ?E, ?M; cbn [negb]; split; try done; try (by right); try (by left).
    by intros [? | ?].
Qed.

End SilentFailures.

(** ** The import of pasted XML *)

Section PastedImport.

Context `{JsRuntime}.
Import XmlImportConfiguration.ImportFromPastedContent.

(** X7. The dialog of the pasted import: a click shows it and does nothing
    else.  The primary action with an empty required field, for which
    get_values() gives null, throws; with an empty text it does nothing and
    the dialog stays; with a text it sends the text as xml_content to
    import_from_pasted_content and hides the dialog right away, before any
    reply, and the dialog is hidden once. *)
Theorem pasted_dialog_flow (frm : Form) (env : Env Result) :
  starts [ EvDialogShow dialog ] (trace env (on_click frm)) /\
  (presses env dialog = None -> trace env (on_click frm) = [ EvDialogShow dialog ]) /\
  (presses env dialog = Some None ->
     trace env (on_click frm) = [ EvDialogShow dialog; EvThrow "TypeError" ]) /\
  (forall values, presses env dialog = Some (Some values) ->
     (truthy (Dialog.xml_content values) = false ->
        trace env (on_click frm) = [ EvDialogShow dialog ]) /\
     (truthy (Dialog.xml_content values) = true ->
        exists shown,
          trace env (on_click frm) =
            [ EvDialogShow dialog;
              EvCall "import_from_pasted_content" (doc frm)
                     [ ("xml_content", Dialog.xml_content values) ];
              EvDialogHide ] ++ shown /\
          (EvDialogHide ∉ shown) /\ methods_called shown = [])).
Proof.
  rewrite pasted_import_trace. split; [by eexists |].
  split; [by intros -> |]. split; [by intros -> |].
  intros values ->. split; intros ->; [reflexivity |]. cbv zeta.
  eexists. split; [reflexivity |].
  destruct (outcome env _ _ _) as [r | err]; [| split; [by intros ?%elem_of_nil | done]].
  unfold callback.
  destruct (truthy (exc r)), (message r) as [result |]; cbn [negb];
    try (split; [by intros ?%elem_of_nil | done]).
  destruct (strict_eq (import_status result) (JStr "Success"));
    (split; [intros Hin; no_member Hin | reflexivity]).
Qed.

(** X8. After a pasted import the document is reloaded exactly when the
    import status is the string Success, whether or not the text was valid
    XML and whatever was processed. *)
Theorem pasted_import_reload (frm : Form) (r : Response Result) (result : Result)
    (env : Env Result) :
  truthy (exc r) = false -> message r = Some result ->
  (EvReload ∈ trace env (callback frm r) <-> import_status result = JStr "Success").
Proof.
  intros E M. rewrite (pasted_import_shown frm r result env E M).
  unfold strict_eq. case_bool_decide as Hs; split; try done.
  - intros _. member.
  - intros Hin. no_member Hin.
Qed.

End PastedImport.

(** ** The table and the summary of the aggressive check *)

Section AggressiveRows.

Context `{JsRuntime}.
Import XmlImportConfiguration.AggressiveImportCheck.

Lemma importTriggered_spec (result : Result) :
  importTriggered result = true <->
  exists a, a ∈ results result /\ truthy (import_triggered a) = true.
Proof.
  unfold importTriggered. rewrite existsb_exists.
  split; intros (a & Ha & Ht); exists a; (split; [| exact Ht]).
  - by apply list_elem_of_In.
  - by apply list_elem_of_In.
Qed.

Lemma attempt_row_pieces (a : Attempt) (p : string) :
  p ∈ attempt_row a -> p = "<tr>" \/ p = "</tr>" \/ (exists k, p = nl k) \/ exists cell, p = td cell.
Proof.
  unfold attempt_row. intros Hp.
  repeat (apply elem_of_cons in Hp as [-> | Hp]; [by eauto 6 |]).
  by apply elem_of_nil in Hp.
Qed.

Lemma attempt_rows_pieces (l : list Attempt) (p : string) :
  p ∈ concat (attempt_row <$> l) ->
  p = "<tr>" \/ p = "</tr>" \/ (exists k, p = nl k) \/ exists cell, p = td cell.
Proof.
  induction l as [| a l IH]; cbn [fmap list_fmap concat].
  - by intros ?%elem_of_nil.
  - intros [Hp | Hp]%elem_of_app; [by eapply attempt_row_pieces | by apply IH].
Qed.

End AggressiveRows.

(** A heading of the summary is no piece of the rows of the attempts. *)
Ltac no_heading Hin :=
  apply attempt_rows_pieces in Hin as [Hin | [Hin | [[k Hin] | [cell Hin]]]];
  cbv [XmlImportConfiguration.AggressiveImportCheck.td nl LF String.append] in Hin;
  discriminate Hin.

Ltac absent Hin :=
  repeat match type of Hin with
  | _ ∈ concat _ => no_heading Hin
  | _ ∈ _ ++ _ => apply elem_of_app in Hin as [Hin | Hin]
  | _ ∈ _ :: _ => apply elem_of_cons in Hin as [Hin | Hin]
  | _ ∈ [] => by apply elem_of_nil in Hin
  | _ = _ => differ Hin
  end.

Section AggressiveSummary.

Context `{JsRuntime}.
Import XmlImportConfiguration.AggressiveImportCheck.



End AggressiveSummary.

(** ** The stream analysis: samples, small feeds and empty feeds *)

Section StreamAnalysis.

Context `{JsRuntime}.
Import XmlImportConfiguration.CheckStreamLength.

Lemma segment_member {A : Type} (part whole : list A) (x : A) :
  segment part whole -> x ∈ part -> x ∈ whole.
Proof.
  intros (pre & post & ->) Hx. apply elem_of_app. right. apply elem_of_app. by left.
Qed.

Lemma sample_line_is_a_line (sample : Sample) :
  exists text, sample_line sample = text +:+ "<br>".
Proof.
  unfold sample_line. destruct (truthy (order_id sample)).
  - exists ("Order " +:+ ToString (order_id sample) +:+ ": Status " +:+ dq +:+
            ToString (status sample) +:+ dq +:+ ", " +:+ ToString (item_count sample) +:+
            " items").
    by rewrite !append_assoc.
  - by eexists.
Qed.

Lemma tag_is_no_sample_line (sample : Sample) : "</div>" <> sample_line sample.
Proof.
  destruct (sample_line_is_a_line sample) as [text ->].
  intros E. apply (f_equal (fun s => rev (chars s))) in E.
  rewrite chars_app, rev_app_distr in E. simpl in E. discriminate E.
Qed.



End StreamAnalysis.

(** ** The settings form: buttons, navigation and the end of an import *)

Section Settings.

Import XmlImportSettings.

(** X9. The settings form always has the buttons Test Connection and View
    Import Logs, on new documents too, and Manual Import between them exactly
    when the document is enabled and has a feed URL; all are in the group
    Actions, and there is no other button. *)
Theorem settings_buttons (frm : Form) :
  has_button "Test Connection" (refresh frm) /\
  has_button "View Import Logs" (refresh frm) /\
  (has_button "Manual Import" (refresh frm) <->
     truthy (enabled (doc frm)) = true /\ truthy (xml_feed_url (doc frm)) = true) /\
  (forall b, b ∈ refresh frm ->
     label b ∈ [ __ "Test Connection" []; __ "Manual Import" []; __ "View Import Logs" [] ] /\
     group b = Some (__ "Actions" [])) /\
  (exists between,
     label <$> refresh frm =
       __ "Test Connection" [] :: between ++ [ __ "View Import Logs" [] ] /\
     forall text, text ∈ between -> text = __ "Manual Import" []).
Proof.
  unfold refresh.
  destruct (truthy (enabled (doc frm))), (truthy (xml_feed_url (doc frm)));
    cbn [andb app]; rewrite ?has_button_cons, ?has_button_nil; cbn [label].
  all: split; [by left |]. all: split; [auto |].
  all: split; [split; [intros Hb; repeat (destruct Hb as [Hb | Hb]; try discriminate Hb);
                         by try contradiction
                      | intros [? ?]; by auto] |].
  all: split; [intros b Hb; each_entry Hb; subst b; cbn [label group];
               (split; [member | reflexivity]) |].
  - exists [ __ "Manual Import" [] ]. split; [reflexivity |].
    by intros text ->%list_elem_of_singleton.
  - exists []. split; [reflexivity |]. by intros text ?%elem_of_nil.
  - exists []. split; [reflexivity |]. by intros text ?%elem_of_nil.
  - exists []. split; [reflexivity |]. by intros text ?%elem_of_nil.
Qed.

(** X10. On the settings form a change of a field does nothing but refresh
    the form, and only the fields enabled and xml_feed_url are handled; View
    Import Logs does nothing but open the list of the XML Import Log
    documents. *)
Theorem settings_navigation (a : Action script) :
  match a with
  | Change _ field _ _ _ _ =>
      field ∈ [ "enabled"; "xml_feed_url" ] /\ events a = [ EvRefresh ]
  | Click _ _ b _ _ _ =>
      label b = __ "View Import Logs" [] ->
      events a = [ EvRoute [ "List"; "XML Import Log" ] ]
  end.
Proof.
  destruct a as [shown b added frm env | field handler handled frm env]; cbn [events].
  - simpl in added. unfold refresh in added.
    each_entry added; subst b; cbn [label]; intros L; try discriminate L. reflexivity.
  - simpl in handled.
    each_entry handled; injection handled as -> ->; (split; [member | reflexivity]).
Qed.

(** X11. A confirmed manual import of the settings form always ends with
    one message box: the green Import Successful with the text of the reply
    when the reply reports success and only then, Import Failed with the text
    of the reply, or with the words Import failed when the reply has no
    message, and Import Error with the message of the failure, or with the
    words Import failed with error when the failure has none. *)
Theorem manual_import_feedback (frm : Form) (env : Env Status.t) :
  confirms env ManualImport.question = true ->
  exists title text colour,
    boxes (trace env (ManualImport.trigger_manual_import frm)) = [ box title text colour ] /\
    (colour = "green" <->
       exists r m, outcome env "trigger_manual_import" (doc frm) [] = Replied r /\
                   message r = Some m /\ truthy (Status.success m) = true) /\
    match outcome env "trigger_manual_import" (doc frm) [] with
    | Replied r =>
        match message r with
        | Some m =>
            title = (if truthy (Status.success m) then "Import Successful"
                     else "Import Failed") /\
            text = Status.message m
        | None => title = "Import Failed" /\ text = JStr "Import failed"
        end
    | Failed err =>
        title = "Import Error" /\
        text = (if truthy (err_message err) then err_message err
                else JStr "Import failed with error")
    end.
Proof.
  intros Hyes. rewrite manual_import_trace, Hyes.
  destruct (outcome env _ _ _) as [r | err].
  - destruct (message r) as [m |] eqn:M; [destruct (truthy (Status.success m)) eqn:S |].
    + exists "Import Successful", (Status.message m), "green".
      split; [reflexivity |]. split; [| done]. split; [| done]. intros _. by exists r, m.
    + exists "Import Failed", (Status.message m), "red".
      split; [reflexivity |]. split; [| done]. split; [done |].
      intros (r' & m' & [= <-] & Hm & Hs). congruence.
    + exists "Import Failed", (JStr "Import failed"), "red".
      split; [reflexivity |]. split; [| done]. split; [done |].
      intros (r' & m' & [= <-] & Hm & Hs). congruence.
  - exists "Import Error", (js_or (err_message err) (JStr "Import failed with error")), "red".
    split; [reflexivity |]. split; [| done]. split; [done |].
    by intros (r' & m' & Hr & _).
Qed.

End Settings.

(** ** The table of a report *)

Section Tables.

Context `{JsRuntime}.
Import XmlImportConfiguration.

Lemma sample_line_is_no_tag (sample : CheckStreamLength.Sample) :
  table_open <> CheckStreamLength.sample_line sample /\
  "</table>" <> CheckStreamLength.sample_line sample.
Proof.
  destruct (sample_line_is_a_line sample) as [text ->].
  split; intros E; apply (f_equal (fun s => rev (chars s))) in E;
    rewrite chars_app, rev_app_distr in E; simpl in E; discriminate E.
Qed.

Lemma stream_analysis_table (frm : Form) (result : CheckStreamLength.Result) :
  one_table (CheckStreamLength.pieces frm result).
Proof.
  unfold one_table, CheckStreamLength.pieces. rewrite foldl_snoc.
  destruct (truthy (CheckStreamLength.xml_valid result));
    destruct (non_empty (CheckStreamLength.sample_elements result));
    destruct (js_lt (CheckStreamLength.content_length result) 500 &&
              truthy (CheckStreamLength.full_xml_content result));
    destruct (strict_eq (CheckStreamLength.element_count result) (JNum 0));
    cbn [andb]; cbv iota;
    rewrite ?occurrences_app,
      ?(occurrences_lines CheckStreamLength.sample_line table_open),
      ?(occurrences_lines CheckStreamLength.sample_line "</table>")
      by (intros sample; apply sample_line_is_no_tag);
    (split; [reflexivity |]); (split; [reflexivity |]);
    rewrite <- ?app_assoc; exists [ nl 8; "<h4>XML Stream Analysis</h4>"; nl 8 ];
    (eexists; split; [reflexivity | shown]).
Qed.

Lemma feed_debug_table (result : DebugXmlFeed.Result) : one_table (DebugXmlFeed.pieces result).
Proof.
  unfold one_table, DebugXmlFeed.pieces. rewrite foldl_snoc.
  destruct (truthy (DebugXmlFeed.error result));
    [| destruct (truthy (DebugXmlFeed.is_mostly_whitespace result));
       destruct (truthy (DebugXmlFeed.is_likely_error result));
       destruct (non_empty (DebugXmlFeed.suggested_actions result)) ];
    (split; [tally |]); (split; [tally |]);
    rewrite <- ?app_assoc; exists [ nl 8; "<h4>XML Feed Debug Information</h4>"; nl 8 ];
    (eexists; split; [reflexivity | shown]).
Qed.

Lemma attempt_rows_hold_no_table (l : list AggressiveImportCheck.Attempt) :
  occurrences table_open (concat (AggressiveImportCheck.attempt_row <$> l)) = 0 /\
  occurrences "</table>" (concat (AggressiveImportCheck.attempt_row <$> l)) = 0.
Proof.
  split; apply occurrences_absent; intros Hin; no_heading Hin.
Qed.

Lemma aggressive_check_table (result : AggressiveImportCheck.Result) :
  one_table (AggressiveImportCheck.pieces result).
Proof.
  unfold one_table, AggressiveImportCheck.pieces. rewrite foldl_app.
  destruct (attempt_rows_hold_no_table (AggressiveImportCheck.results result)) as [Ho Hc].
  destruct (AggressiveImportCheck.importTriggered result);
    rewrite ?occurrences_app, Ho, Hc;
    (split; [reflexivity |]); (split; [reflexivity |]);
    rewrite <- ?app_assoc;
    exists [ nl 10; "<h4>Aggressive Import Check Results</h4>"; nl 10;
             "<p><strong>Total Attempts:</strong> " +:+
             ToString (AggressiveImportCheck.total_attempts result) +:+ "</p>"; nl 10 ];
    (eexists; split; [reflexivity | shown]).
Qed.

Lemma structure_holds_no_table (d : ImportFromPastedContent.DebugInfo) :
  occurrences table_open (ImportFromPastedContent.structure d) = 0 /\
  occurrences "</table>" (ImportFromPastedContent.structure d) = 0.
Proof.
  unfold ImportFromPastedContent.structure.
  by destruct (non_empty (ImportFromPastedContent.direct_children d)),
       (non_empty (ImportFromPastedContent.all_unique_tags d)).
Qed.

Lemma pasted_import_table (frm : Form) (result : ImportFromPastedContent.Result) :
  one_table (ImportFromPastedContent.pieces frm result).
Proof.
  unfold one_table, ImportFromPastedContent.pieces. rewrite !foldl_snoc.
  destruct (truthy (ImportFromPastedContent.xml_valid result));
    [ destruct (non_empty (ImportFromPastedContent.processed_items result));
      destruct (non_empty (ImportFromPastedContent.errors result));
      destruct (ImportFromPastedContent.debug_info result) as [d |];
      try destruct (structure_holds_no_table d) as [Ho Hc] |];
    rewrite ?occurrences_app, ?Ho, ?Hc;
    (split; [tally |]); (split; [tally |]);
    rewrite <- ?app_assoc; exists [ nl 11; "<h4>Pasted XML Import Results</h4>"; nl 11 ];
    (eexists; split; [reflexivity | shown]).
Qed.


End Tables.

(** ** What the feed sent, in the markup shown *)

Section Verbatim.

Import XmlImportConfiguration.DebugXmlFeed.

(** X13. The feed debug report puts what the feed sent into the markup as it
    is: the text handed to the message box holds the raw content and the
    formatted content character by character, whatever they are, and so does
    it hold the error of a failed fetch. *)
Theorem feed_content_verbatim (frm : Form) (r : Response Result) (result : Result)
    (env : Env Result) :
  truthy (exc r) = false -> message r = Some result ->
  exists markup,
    EvMsgprint {| Msg.title := Some (__ "XML Feed Debug" []);
                  Msg.message := Raw (JStr markup);
                  Msg.indicator := None;
                  Msg.wide := true |} ∈ trace env (callback frm r) /\
    contains (ToString (url result)) markup /\
    if truthy (error result) then contains (ToString (error result)) markup
    else contains (ToString (raw_content result)) markup /\
         contains (ToString (content result)) markup.
Proof.
  intros E M. rewrite (feed_debug_shown frm r result env E M).
  exists (html (pieces result)). split; [unfold report; member |].
  unfold pieces. rewrite foldl_snoc.
  split.
  - apply (contains_piece _ (tr "URL:" None (ToString (url result)))).
    + destruct (truthy (error result));
        [| destruct (truthy (is_mostly_whitespace result)), (truthy (is_likely_error result)),
             (non_empty (suggested_actions result)) ]; shown.
    + unfold tr. do 5 apply contains_right. apply contains_here.
  - destruct (truthy (error result)).
    + apply (contains_piece _ (tr "Error:" (Some "text-danger") (ToString (error result))));
        [shown |].
      unfold tr. do 5 apply contains_right. apply contains_here.
    + split.
      * apply (contains_piece _ (tr "Raw Content:" None
                 ("<code>" +:+ ToString (raw_content result) +:+ "</code>"))).
        -- destruct (truthy (is_mostly_whitespace result)), (truthy (is_likely_error result)),
             (non_empty (suggested_actions result)); shown.
        -- unfold tr. do 5 apply contains_right. apply contains_left, contains_right.
           apply contains_here.
      * apply (contains_piece _ (tr "Formatted Content:" None
                 ("<pre " +:+
                  attr "style" "max-height: 400px; overflow-y: auto; background: #f8f9fa; padding: 10px; white-space: pre-wrap;" +:+
                  ">" +:+ ToString (content result) +:+ "</pre>"))).
        -- destruct (truthy (is_mostly_whitespace result)), (truthy (is_likely_error result)),
             (non_empty (suggested_actions result)); shown.
        -- unfold tr. do 5 apply contains_right. apply contains_left.
           do 3 apply contains_right. apply contains_here.
Qed.

End Verbatim.

(** ** Every action of the three forms *)

(** A handler surveyed constructor by constructor, its callbacks case by
    case. *)
Ltac emitted :=
  repeat first
    [ progress intros
    | discriminate
    | match goal with
      | |- emits_only _ (if ?c then _ else _) => destruct c
      | |- emits_only _ (match ?c with _ => _ end) => destruct c
      | |- only_calls _ (if ?c then _ else _) => destruct c
      | |- only_calls _ (match ?c with _ => _ end) => destruct c
      end
    | constructor ].

Ltac open_handlers :=
  unfold XmlImportConfiguration.TriggerManualImport.on_click,
    XmlImportConfiguration.TriggerManualImport.callback,
    XmlImportConfiguration.CheckStreamLength.on_click,
    XmlImportConfiguration.CheckStreamLength.callback,
    XmlImportConfiguration.DebugXmlFeed.on_click,
    XmlImportConfiguration.DebugXmlFeed.callback,
    XmlImportConfiguration.AggressiveImportCheck.on_click,
    XmlImportConfiguration.AggressiveImportCheck.callback,
    XmlImportConfiguration.ImportFromPastedContent.on_click,
    XmlImportConfiguration.ImportFromPastedContent.primary_action,
    XmlImportConfiguration.ImportFromPastedContent.callback,
    XmlImportConfigurationShort.on_click, XmlImportConfigurationShort.callback,
    XmlImportSettings.TestConnection.test_xml_connection,
    XmlImportSettings.TestConnection.callback,
    XmlImportSettings.TestConnection.error,
    XmlImportSettings.TestConnection.failed,
    XmlImportSettings.ManualImport.trigger_manual_import,
    XmlImportSettings.ManualImport.callback,
    XmlImportSettings.ManualImport.error,
    XmlImportSettings.view_import_logs, XmlImportSettings.field_changed,
    no_error_callback.

Section Actions.

Context `{JsRuntime}.

(** The handlers of the three scripts are these ten: what holds of each of
    them holds of the handler of every action. *)
Lemma every_handler (Q : forall M : Type, Prog M -> Prop) :
  (forall frm, Q _ (XmlImportConfiguration.TriggerManualImport.on_click frm)) ->
  (forall frm, Q _ (XmlImportConfiguration.CheckStreamLength.on_click frm)) ->
  (forall frm, Q _ (XmlImportConfiguration.DebugXmlFeed.on_click frm)) ->
  (forall frm, Q _ (XmlImportConfiguration.AggressiveImportCheck.on_click frm)) ->
  (forall frm, Q _ (XmlImportConfiguration.ImportFromPastedContent.on_click frm)) ->
  (forall frm, Q _ (XmlImportConfigurationShort.on_click frm)) ->
  (forall frm, Q _ (XmlImportSettings.TestConnection.test_xml_connection frm)) ->
  (forall frm, Q _ (XmlImportSettings.ManualImport.trigger_manual_import frm)) ->
  (forall frm, Q _ (XmlImportSettings.view_import_logs frm)) ->
  (forall frm, Q _ (XmlImportSettings.field_changed frm)) ->
  forall (s : Script) (a : Action s), s ∈ scripts -> handled_by a Q.
Proof.
  intros Q1 Q2 Q3 Q4 Q5 Q6 Q7 Q8 Q9 Q10 s a Hs. unfold scripts in Hs.
  destruct a as [shown b added frm env | field handler handled frm env];
    cbn [handled_by]; each_entry Hs; subst s; simpl in added || simpl in handled.
  - unfold XmlImportConfiguration.refresh in added.
    each_entry added; subst b; cbn [on_click payload]; auto.
  - unfold XmlImportConfigurationShort.refresh in added.
    each_entry added; subst b; cbn [on_click payload]; auto.
  - unfold XmlImportSettings.refresh in added.
    each_entry added; subst b; cbn [on_click payload]; auto.
  - each_entry handled.
  - each_entry handled.
  - each_entry handled; injection handled as _ ->; auto.
Qed.

Lemma events_of_handler {s : Script} (a : Action s) (R : list Event -> Prop) :
  handled_by a (fun M p => forall env : Env M, R (trace env p)) -> R (events a).
Proof. destruct a; cbn [handled_by events]; auto. Qed.

(** X14. Whatever the operator and the server do, an action on one of the three
    forms calls the server at most once. *)
Theorem one_call_per_action (s : Script) (a : Action s) :
  s ∈ scripts -> length (methods_called (events a)) <= 1.
Proof.
  intros Hs. apply (events_of_handler a (fun t => length (methods_called t) <= 1)).
  revert s a Hs. apply every_handler; intros frm env; apply calls_once_sound;
    open_handlers.
  - apply once_confirm; [apply once_call |]; emitted.
  - apply once_call; emitted.
  - apply once_call; emitted.
  - apply once_confirm; [apply once_call |]; emitted.
  - apply once_dialog_show; [intros [values |] | emitted].
    + destruct (truthy (Dialog.xml_content values));
        [apply once_call | apply once_quiet]; emitted.
    + apply once_quiet; emitted.
  - apply once_confirm; [apply once_call |]; emitted.
  - destruct (truthy (xml_feed_url (doc frm))); cbn [negb].
    + apply once_show_alert, once_call; emitted.
    + apply once_quiet; emitted.
  - apply once_confirm; [apply once_show_alert, once_disable_form, once_call |]; emitted.
  - apply once_quiet; emitted.
  - apply once_quiet; emitted.
Qed.

(** X15. On all three forms the document is reloaded only after a call to the
    server: no action reloads it on its own. *)
Theorem reload_follows_call (s : Script) (a : Action s) (pre post : list Event) :
  s ∈ scripts -> events a = pre ++ EvReload :: post ->
  exists method d args, EvCall method d args ∈ pre.
Proof.
  intros Hs. apply reloads_follow_spec.
  apply (events_of_handler a (fun t => reloads_follow false t = true)).
  revert s a Hs. apply every_handler; intros frm env; apply reloads_in_callbacks_sound;
    open_handlers.
  - apply guarded_confirm; [apply guarded_call | apply guarded_plain; emitted].
  - apply guarded_call.
  - apply guarded_call.
  - apply guarded_confirm; [apply guarded_call | apply guarded_plain; emitted].
  - apply guarded_dialog_show; [intros [values |] | apply guarded_plain; emitted].
    + destruct (truthy (Dialog.xml_content values));
        [apply guarded_call | apply guarded_plain; emitted].
    + apply guarded_plain; emitted.
  - apply guarded_confirm; [apply guarded_call | apply guarded_plain; emitted].
  - destruct (truthy (xml_feed_url (doc frm))); cbn [negb].
    + apply guarded_show_alert, guarded_call.
    + apply guarded_plain; emitted.
  - apply guarded_confirm;
      [apply guarded_show_alert, guarded_disable_form, guarded_call
      | apply guarded_plain; emitted].
  - apply guarded_plain; emitted.
  - apply guarded_plain; emitted.
Qed.

Lemma keeps_form_sound (t : list Event) (before : bool) :
  Forall keeps_form t -> form_enabled before t = before /\ EvDisable ∉ t.
Proof.
  unfold form_enabled. induction 1 as [| e t [Hd He] _ [IHf IHd]]; cbn [foldl].
  - split; [reflexivity | by intros ?%elem_of_nil].
  - split.
    + destruct e; try exact IHf; done.
    + intros [<- | Hin]%elem_of_cons; [done | by apply IHd].
Qed.

(** X16. No action leaves a form that accepts input disabled, whatever the
    operator and the server do; and the form is disabled in the course of an
    action only around the call of trigger_manual_import. *)
Theorem form_left_enabled (s : Script) (a : Action s) :
  s ∈ scripts ->
  form_enabled true (events a) = true /\
  (EvDisable ∈ events a -> methods_called (events a) = [ "trigger_manual_import" ]).
Proof.
  intros Hs.
  apply (events_of_handler a
           (fun t => form_enabled true t = true /\
                     (EvDisable ∈ t -> methods_called t = [ "trigger_manual_import" ]))).
  revert s a Hs. apply every_handler; intros frm env.
  8: { rewrite manual_import_trace.
       destruct (confirms env _);
         [| split; [reflexivity | intros Hin; no_member Hin]].
       destruct (outcome env _ _ _) as [r | err]; [| by split].
       destruct (message r) as [m |]; [destruct (truthy (XmlImportSettings.Status.success m)) |];
         by split. }
  all: match goal with
       | |- form_enabled true (trace ?e ?p) = true /\ _ =>
           assert (Hk : Forall keeps_form (trace e p))
             by (apply emits_only_sound; open_handlers; unfold keeps_form; emitted)
       end.
  all: destruct (keeps_form_sound _ true Hk) as [Hf Hd]; split; [exact Hf | done].
Qed.

(** X17. Each button calls the method it is named after and no other: a
    method called after a click on a button is the one paired with the label
    of the button here.  View Import Logs is paired with none. *)
Theorem button_wiring (s : Script) (shown frm : Form) (b : Button)
    (env : Env (payload b)) (m : string) :
  s ∈ scripts -> b ∈ refresh s shown ->
  m ∈ methods_called (trace env (on_click b frm)) ->
  (label b, m) ∈
    [ (__ "▶️ Trigger Manual Import" [], "trigger_manual_import");
      (__ "Trigger Manual Import" [], "trigger_manual_import");
      (__ "🔍 Check Stream Length" [], "check_stream_length");
      (__ "🐛 Debug XML Feed" [], "debug_xml_feed");
      (__ "🎯 Aggressive Import Check" [], "aggressive_import_check");
      (__ "📋 Debug Import from Pasted XML" [], "import_from_pasted_content");
      (__ "Test Connection" [], "test_connection");
      (__ "Manual Import" [], "trigger_manual_import") ].
Proof.
  intros Hs Hb. unfold scripts in Hs. each_entry Hs; subst s; simpl in Hb.
  - unfold XmlImportConfiguration.refresh in Hb.
    each_entry Hb; subst b; cbn [label on_click payload] in *; intros Hm;
      match goal with
      | |- (_, _) ∈ ?pairs =>
          eapply (only_calls_sound (fun m => (_, m) ∈ pairs)) in Hm; [exact Hm |]
      end; open_handlers; emitted.
  - unfold XmlImportConfigurationShort.refresh in Hb.
    each_entry Hb; subst b; cbn [label on_click payload] in *; intros Hm;
      match goal with
      | |- (_, _) ∈ ?pairs =>
          eapply (only_calls_sound (fun m => (_, m) ∈ pairs)) in Hm; [exact Hm |]
      end; open_handlers; emitted.
  - unfold XmlImportSettings.refresh in Hb.
    each_entry Hb; subst b; cbn [label on_click payload] in *; intros Hm;
      match goal with
      | |- (_, _) ∈ ?pairs =>
          eapply (only_calls_sound (fun m => (_, m) ∈ pairs)) in Hm; [exact Hm |]
      end; open_handlers; emitted.
Qed.

(** X18. Where the buttons are: on the configuration form the manual
    import is in the group Actions, the import of pasted XML in the group
    Debug and the three diagnostics outside any group; on the settings form
    every button is in the group Actions. *)
Theorem button_groups (s : Script) (shown : Form) (b : Button) :
  s ∈ scripts -> b ∈ refresh s shown ->
  (group b = None <->
     label b ∈ [ __ "🔍 Check Stream Length" []; __ "🐛 Debug XML Feed" [];
                 __ "🎯 Aggressive Import Check" [] ]) /\
  (group b = Some (__ "Debug" []) <-> label b = __ "📋 Debug Import from Pasted XML" []) /\
  (group b = Some (__ "Actions" []) <->
     label b ∈ [ __ "▶️ Trigger Manual Import" []; __ "Trigger Manual Import" [];
                 __ "Test Connection" []; __ "Manual Import" [];
                 __ "View Import Logs" [] ]).
Proof.
  intros Hs Hb. unfold scripts in Hs. each_entry Hs; subst s; simpl in Hb.
  - unfold XmlImportConfiguration.refresh in Hb.
    each_entry Hb; subst b; cbn [label group]; repeat split; try done;
      first [ intros Hin; no_member Hin | intros _; by member ].
  - unfold XmlImportConfigurationShort.refresh in Hb.
    each_entry Hb; subst b; cbn [label group]; repeat split; try done;
      first [ intros Hin; no_member Hin | intros _; by member ].
  - unfold XmlImportSettings.refresh in Hb.
    each_entry Hb; subst b; cbn [label group]; repeat split; try done;
      first [ intros Hin; no_member Hin | intros _; by member ].
Qed.

(** X19. No import without the operator's consent: on all three forms, the
    methods trigger_manual_import and aggressive_import_check are called
    only by an action that first asked a question, and only when the operator
    confirmed it. *)
Theorem imports_need_confirmation (s : Script) (a : Action s) (m : string) :
  s ∈ scripts -> m ∈ methods_called (events a) ->
  m ∈ [ "trigger_manual_import"; "aggressive_import_check" ] ->
  exists question rest, events a = EvConfirm question :: rest /\ agreed a question = true.
Proof.
  intros Hs. revert m.
  cut (handled_by a (fun M p => forall (env : Env M) m,
         m ∈ methods_called (trace env p) ->
         m ∈ [ "trigger_manual_import"; "aggressive_import_check" ] ->
         exists question rest,
           trace env p = EvConfirm question :: rest /\ confirms env question = true)).
  { destruct a; cbn [handled_by events agreed]; intros HQ m; apply HQ. }
  revert s a Hs. apply every_handler; intros frm env m Hm Hi.
  1, 6: change (trace env (XmlImportConfigurationShort.on_click frm))
          with (trace env (XmlImportConfiguration.TriggerManualImport.on_click frm)) in *;
        rewrite configuration_import_trace in *;
        destruct (confirms env (import_question frm)) eqn:Hyes;
        [by eexists _, _ | no_member Hm].
  3: { rewrite aggressive_check_trace in *.
       destruct (confirms env _) eqn:Hyes; [by eexists _, _ | no_member Hm]. }
  5: { rewrite manual_import_trace in *.
       destruct (confirms env _) eqn:Hyes; [by eexists _, _ | no_member Hm]. }
  all: exfalso.
  - apply (only_calls_sound (fun m => m = "check_stream_length")) in Hm;
      [subst m; no_member Hi | open_handlers; emitted].
  - apply (only_calls_sound (fun m => m = "debug_xml_feed")) in Hm;
      [subst m; no_member Hi | open_handlers; emitted].
  - apply (only_calls_sound (fun m => m = "import_from_pasted_content")) in Hm;
      [subst m; no_member Hi | open_handlers; emitted].
  - apply (only_calls_sound (fun m => m = "test_connection")) in Hm;
      [subst m; no_member Hi | open_handlers; emitted].
  - apply (only_calls_sound (fun m => False)) in Hm; [done | open_handlers; emitted].
  - apply (only_calls_sound (fun m => False)) in Hm; [done | open_handlers; emitted].
Qed.

End Actions.

(** ** Closed instances of the further properties *)

Section FurtherInstances.

#[local] Existing Instance example_runtime.

(** A confirmed manual import of [saved_form] that the server accepts. *)
Lemma configuration_manual_import_witness :
  trace (agreeing (Replied started))
        (XmlImportConfiguration.TriggerManualImport.on_click saved_form) =
    [ EvConfirm (import_question saved_form);
      EvCall "trigger_manual_import" saved_doc [];
      import_notice;
      EvReload ].
Proof.
  destruct (configuration_manual_import saved_form (agreeing (Replied started)))
    as (_ & _ & _ & Hyes).
  destruct (Hyes eq_refl) as (_ & Hclean & _). exact (Hclean eq_refl).
Defined.

(** A stream length check whose request is lost shows nothing. *)
Lemma reports_fail_silently_witness :
  trace (agreeing (Failed lost))
        (XmlImportConfiguration.CheckStreamLength.on_click saved_form) =
    [ EvCall "check_stream_length" saved_doc [] ].
Proof.
  destruct (reports_fail_silently saved_form) as (Hcheck & _).
  apply (Hcheck (agreeing (Failed lost))). exact I.
Defined.





(** An operator who opens the dialog and never presses Import XML. *)
Lemma pasted_dialog_flow_witness :
  trace (declining (Failed lost))
        (XmlImportConfiguration.ImportFromPastedContent.on_click saved_form) =
    [ EvDialogShow XmlImportConfiguration.ImportFromPastedContent.dialog ].
Proof.
  destruct (pasted_dialog_flow saved_form (declining (Failed lost))) as (_ & Hidle & _).
  exact (Hidle eq_refl).
Defined.

(** The import of [good_paste] succeeded: the document is reloaded. *)
Lemma pasted_import_reload_witness :
  EvReload ∈ trace (agreeing (Failed lost))
                   (XmlImportConfiguration.ImportFromPastedContent.callback saved_form
                      (carrying good_paste)).
Proof.
  by apply (pasted_import_reload saved_form (carrying good_paste) good_paste
              (agreeing (Failed lost)) eq_refl eq_refl).
Defined.

(** [saved_form] as a settings document has the Manual Import button,
    [blank_form] has not. *)
Lemma settings_buttons_witness :
  has_button "Manual Import" (XmlImportSettings.refresh saved_form) /\
  ~ has_button "Manual Import" (XmlImportSettings.refresh blank_form).
Proof.
  split.
  - destruct (settings_buttons saved_form) as (_ & _ & Hmanual & _). by apply Hmanual.
  - destruct (settings_buttons blank_form) as (_ & _ & Hmanual & _).
    intros Hb. apply Hmanual in Hb as [Henabled _]. discriminate Henabled.
Defined.

(** A change of the field enabled. *)
Lemma settings_navigation_witness :
  events (Change XmlImportSettings.script "enabled" XmlImportSettings.field_changed
            (list_elem_of_here _ _) saved_form (declining (Failed lost))) = [ EvRefresh ].
Proof.
  exact (proj2 (settings_navigation
                  (Change XmlImportSettings.script "enabled" XmlImportSettings.field_changed
                     (list_elem_of_here _ _) saved_form (declining (Failed lost))))).
Defined.

(** The import that the server reports as done ends with the green box. *)
Lemma manual_import_feedback_witness :
  boxes (trace (agreeing (Replied imported))
               (XmlImportSettings.ManualImport.trigger_manual_import saved_form)) =
    [ XmlImportSettings.box "Import Successful" (JStr "Imported 3 orders") "green" ].
Proof.
  destruct (manual_import_feedback saved_form (agreeing (Replied imported)) eq_refl)
    as (title & text & colour & Hboxes & Hgreen & Htitle & Htext).
  assert (Hcolour : colour = "green") by (apply Hgreen; by eexists _, _).
  simpl in Htitle, Htext. by rewrite Hboxes, Htitle, Htext, Hcolour.
Defined.

(** A confirmed aggressive check that triggers the import calls once. *)
Lemma one_call_per_action_witness :
  XmlImportConfiguration.script ∈ scripts /\
  length (methods_called
            (events (click_at XmlImportConfiguration.script saved_form 3 _ eq_refl saved_form
                       (agreeing (Replied (carrying two_attempts)))))) <= 1.
Proof.
  assert (Hs : XmlImportConfiguration.script ∈ scripts) by (unfold scripts; member).
  split; [exact Hs |]. by apply one_call_per_action.
Defined.

(** The reload after the manual import of the short script follows the
    call. *)
Lemma reload_follows_call_witness :
  events (click_at XmlImportConfigurationShort.script saved_form 0 _ eq_refl saved_form
            (agreeing (Replied started))) =
    [ EvConfirm (import_question saved_form); EvCall "trigger_manual_import" saved_doc [];
      import_notice ] ++ EvReload :: [] /\
  exists method d args,
    EvCall method d args
      ∈ [ EvConfirm (import_question saved_form);
          EvCall "trigger_manual_import" saved_doc []; import_notice ].
Proof.
  assert (Hs : XmlImportConfigurationShort.script ∈ scripts) by (unfold scripts; member).
  split; [reflexivity |].
  by apply (reload_follows_call XmlImportConfigurationShort.script
              (click_at XmlImportConfigurationShort.script saved_form 0 _ eq_refl saved_form
                 (agreeing (Replied started))) _ [] Hs).
Defined.

(** A manual import of the settings form whose request is lost: the form
    was disabled, and accepts input again. *)
Lemma form_left_enabled_witness :
  form_enabled true
    (events (click_at XmlImportSettings.script saved_form 1 _ eq_refl saved_form
               (agreeing (Failed lost)))) = true /\
  methods_called
    (events (click_at XmlImportSettings.script saved_form 1 _ eq_refl saved_form
               (agreeing (Failed lost)))) = [ "trigger_manual_import" ].
Proof.
  assert (Hs : XmlImportSettings.script ∈ scripts) by (unfold scripts; member).
  destruct (form_left_enabled XmlImportSettings.script
              (click_at XmlImportSettings.script saved_form 1 _ eq_refl saved_form
                 (agreeing (Failed lost))) Hs) as [Hleft Hcall].
  split; [exact Hleft |]. apply Hcall. cbn. member.
Defined.

(** The feed debug button of [saved_form] calls debug_xml_feed. *)
Lemma button_wiring_witness :
  debug_button ∈ refresh XmlImportConfiguration.script saved_form /\
  "debug_xml_feed" ∈ methods_called (trace (agreeing (Failed lost))
                                           (on_click debug_button saved_form)) /\
  (label debug_button, "debug_xml_feed") ∈
    [ (__ "▶️ Trigger Manual Import" [], "trigger_manual_import");
      (__ "Trigger Manual Import" [], "trigger_manual_import");
      (__ "🔍 Check Stream Length" [], "check_stream_length");
      (__ "🐛 Debug XML Feed" [], "debug_xml_feed");
      (__ "🎯 Aggressive Import Check" [], "aggressive_import_check");
      (__ "📋 Debug Import from Pasted XML" [], "import_from_pasted_content");
      (__ "Test Connection" [], "test_connection");
      (__ "Manual Import" [], "trigger_manual_import") ].
Proof.
  assert (Hs : XmlImportConfiguration.script ∈ scripts) by (unfold scripts; member).
  assert (Hb : debug_button ∈ refresh XmlImportConfiguration.script saved_form)
    by (cbn; member).
  assert (Hm : "debug_xml_feed" ∈ methods_called (trace (agreeing (Failed lost))
                                                        (on_click debug_button saved_form)))
    by (cbn; member).
  split; [exact Hb |]. split; [exact Hm |].
  exact (button_wiring XmlImportConfiguration.script saved_form saved_form debug_button
           (agreeing (Failed lost)) "debug_xml_feed" Hs Hb Hm).
Defined.

(** The feed debug button is outside any group. *)
Lemma button_groups_witness :
  debug_button ∈ refresh XmlImportConfiguration.script saved_form /\
  group debug_button = None.
Proof.
  assert (Hs : XmlImportConfiguration.script ∈ scripts) by (unfold scripts; member).
  assert (Hb : debug_button ∈ refresh XmlImportConfiguration.script saved_form)
    by (cbn; member).
  destruct (button_groups XmlImportConfiguration.script saved_form debug_button Hs Hb)
    as (Hnone & _).
  split; [exact Hb |]. apply Hnone. member.
Defined.


(** The report on [blank_fetch] holds the four blanks the feed sent. *)
Lemma feed_content_verbatim_witness :
  exists markup,
    EvMsgprint {| Msg.title := Some (__ "XML Feed Debug" []);
                  Msg.message := Raw (JStr markup);
                  Msg.indicator := None;
                  Msg.wide := true |}
      ∈ trace (agreeing (Failed lost))
              (XmlImportConfiguration.DebugXmlFeed.callback saved_form (carrying blank_fetch)) /\
    contains "    " markup.
Proof.
  destruct (feed_content_verbatim saved_form (carrying blank_fetch) blank_fetch
              (agreeing (Failed lost)) eq_refl eq_refl)
    as (markup & Hshown & _ & Hraw & _).
  exists markup. split; [exact Hshown | exact Hraw].
Defined.

(** The manual import of the settings form was asked for and confirmed. *)
Lemma imports_need_confirmation_witness :
  exists rest,
    events (click_at XmlImportSettings.script saved_form 1 _ eq_refl saved_form
              (agreeing (Failed lost))) =
      EvConfirm XmlImportSettings.ManualImport.question :: rest.
Proof.
  assert (Hs : XmlImportSettings.script ∈ scripts) by (unfold scripts; member).
  destruct (imports_need_confirmation XmlImportSettings.script
              (click_at XmlImportSettings.script saved_form 1 _ eq_refl saved_form
                 (agreeing (Failed lost)))
              "trigger_manual_import" Hs) as (question & rest & Hfirst & _).
  - cbn. member.
  - member.
  - exists rest. rewrite Hfirst. f_equal. by injection Hfirst as <- _.
Defined.

End FurtherInstances.
